(** * F1 standings aggregation: a shallow embedding of [f1_api_call.py]

    The script walks seasons and rounds, queries five Ergast endpoints and
    joins the answers per driver into one flat row.  The embedding keeps the
    dynamic typing of the script: decoded JSON payloads are values of
    [pyval], every subscript, [len], [in] and iteration can raise the Python
    exception it raises in the script, and the effects (HTTP requests, lines
    printed, rows appended to [all_race_data]) are threaded through a small
    state-and-exception monad. *)

From Stdlib Require Import ZArith List String Ascii Bool Lia DecimalString.
From Stdlib Require Import Sorted.
Import ListNotations.

Local Open Scope string_scope.
Local Open Scope Z_scope.
Local Open Scope list_scope.

Infix "+s+" := String.append (at level 60, right associativity).

(** ** Python values *)

(** The values [response.json()] can yield, and the ones the script builds
    itself.  JSON numbers with a fraction or an exponent are left out (Ergast
    sends every number as a string).  A [string] is a sequence of characters;
    a dict is an association list in insertion order, read at the first
    binding of a key (the keys of a dict are distinct). *)
#[local] Unset Elimination Schemes.
Inductive pyval : Type :=
| PNone
| PBool (b : bool)
| PInt (z : Z)
| PStr (s : string)
| PList (l : list pyval)
| PDict (d : list (string * pyval)).
#[local] Set Elimination Schemes.

Inductive exn : Type := KeyError | IndexError | TypeError | AttributeError.

Inductive outcome (A : Type) : Type :=
| Ok (a : A)
| Raise (e : exn).
Arguments Ok {A} a.
Arguments Raise {A} e.

Definition rbind {A B : Type} (r : outcome A) (k : A -> outcome B)
  : outcome B :=
  match r with
  | Ok a => k a
  | Raise e => Raise e
  end.

Notation "x <~ r ;; k" := (rbind r (fun x => k))
  (at level 61, r at next level, right associativity).

Fixpoint dict_get (k : string) (d : list (string * pyval)) : option pyval :=
  match d with
  | [] => None
  | (k', v) :: rest => if String.eqb k' k then Some v else dict_get k rest
  end.

(** [bool(v)] *)
Definition truthy (v : pyval) : bool :=
  match v with
  | PNone => false
  | PBool b => b
  | PInt z => negb (z =? 0)
  | PStr s => negb (String.eqb s EmptyString)
  | PList l => match l with [] => false | _ :: _ => true end
  | PDict d => match d with [] => false | _ :: _ => true end
  end.

(** [v[k]] for a string key [k] *)
Definition getitem (v : pyval) (k : string) : outcome pyval :=
  match v with
  | PDict d => match dict_get k d with
               | Some x => Ok x
               | None => Raise KeyError
               end
  | _ => Raise TypeError
  end.

(** [v[0]]; the keys of a decoded JSON object are strings, so [0] is never
    one of them. *)
Definition getitem0 (v : pyval) : outcome pyval :=
  match v with
  | PList (x :: _) => Ok x
  | PList [] => Raise IndexError
  | PStr (String c _) => Ok (PStr (String c EmptyString))
  | PStr EmptyString => Raise IndexError
  | PDict _ => Raise KeyError
  | _ => Raise TypeError
  end.

(** [v.get(k, default)] *)
Definition py_get (v : pyval) (k : string) (default : pyval) : outcome pyval :=
  match v with
  | PDict d => match dict_get k d with
               | Some x => Ok x
               | None => Ok default
               end
  | _ => Raise AttributeError
  end.

(** [len(v)] *)
Definition py_len (v : pyval) : outcome Z :=
  match v with
  | PStr s => Ok (Z.of_nat (String.length s))
  | PList l => Ok (Z.of_nat (List.length l))
  | PDict d => Ok (Z.of_nat (List.length d))
  | _ => Raise TypeError
  end.

Fixpoint chars (s : string) : list pyval :=
  match s with
  | EmptyString => []
  | String c rest => PStr (String c EmptyString) :: chars rest
  end.

(** The items a [for] loop or a comprehension draws from [v] *)
Definition py_iter (v : pyval) : outcome (list pyval) :=
  match v with
  | PList l => Ok l
  | PDict d => Ok (map (fun kv => PStr (fst kv)) d)
  | PStr s => Ok (chars s)
  | _ => Raise TypeError
  end.

(** [a == b] *)
Fixpoint py_eq (a b : pyval) {struct a} : bool :=
  match a, b with
  | PNone, PNone => true
  | PBool x, PBool y => Bool.eqb x y
  | PBool x, PInt y => (if x then 1 else 0) =? y
  | PInt x, PBool y => x =? (if y then 1 else 0)
  | PInt x, PInt y => x =? y
  | PStr x, PStr y => String.eqb x y
  | PList xs, PList ys =>
      (fix eq_items (xs ys : list pyval) {struct xs} : bool :=
         match xs, ys with
         | [], [] => true
         | x :: xs', y :: ys' => py_eq x y && eq_items xs' ys'
         | _, _ => false
         end) xs ys
  | PDict d1, PDict d2 =>
      (List.length d1 =? List.length d2)%nat &&
      (fix sub (d : list (string * pyval)) {struct d} : bool :=
         match d with
         | [] => true
         | (k, v) :: rest =>
             match dict_get k d2 with
             | Some v' => py_eq v v'
             | None => false
             end && sub rest
         end) d1
  | _, _ => false
  end.

Fixpoint substring_of (p s : string) : bool :=
  String.prefix p s ||
  match s with
  | EmptyString => false
  | String _ rest => substring_of p rest
  end.

(** [k in v] for a string [k] *)
Definition py_in (k : string) (v : pyval) : outcome bool :=
  match v with
  | PDict d => Ok (match dict_get k d with Some _ => true | None => false end)
  | PList l => Ok (existsb (fun x => py_eq x (PStr k)) l)
  | PStr s => Ok (substring_of k s)
  | _ => Raise TypeError
  end.

(** Lists and dicts cannot be dict keys. *)
Definition hashable (v : pyval) : bool :=
  match v with
  | PList _ | PDict _ => false
  | _ => true
  end.

Definition str_of_int (z : Z) : string := NilZero.string_of_int (Z.to_int z).

(** Python's [range(lo, hi)] *)
Definition range (lo hi : Z) : list Z :=
  map (fun i => lo + Z.of_nat i) (seq 0 (Z.to_nat (hi - lo))).

(** ** The transport and the state of a run *)

(** What [requests.get(url)] hands back: the status code and the decoded
    body that [response.json()] returns.  A transport that fails to answer,
    or answers 200 with a body that is not JSON, is outside the model. *)
Record response : Type := mkResponse {
  status_code : Z;
  json : pyval
}.

(** The remote service: the response it gives for each URL. *)
Definition http : Type := string -> response.

(** [requests]: the URLs fetched so far, oldest first; [stdout]: the lines
    printed; [all_race_data]: the list [main] appends its rows to. *)
Record state : Type := mkState {
  requests : list string;
  stdout : list string;
  all_race_data : list pyval
}.

Definition M (A : Type) : Type := http -> state -> outcome A * state.

Definition ret {A : Type} (a : A) : M A := fun _ st => (Ok a, st).

Definition bind {A B : Type} (m : M A) (k : A -> M B) : M B :=
  fun srv st =>
    match m srv st with
    | (Ok a, st') => k a srv st'
    | (Raise e, st') => (Raise e, st')
    end.

Notation "x <- m ;; k" := (bind m (fun x => k))
  (at level 61, m at next level, right associativity).
Notation "m ;;; k" := (bind m (fun _ => k))
  (at level 61, right associativity).

Definition lift {A : Type} (r : outcome A) : M A := fun _ st => (r, st).

Definition requests_get (url : string) : M response :=
  fun srv st =>
    (Ok (srv url),
     mkState (requests st ++ [url]) (stdout st) (all_race_data st)).

Definition print (line : string) : M unit :=
  fun _ st =>
    (Ok tt, mkState (requests st) (stdout st ++ [line]) (all_race_data st)).

Definition append_row (row : pyval) : M unit :=
  fun _ st =>
    (Ok tt, mkState (requests st) (stdout st) (all_race_data st ++ [row])).

Definition clear_rows : M unit :=
  fun _ st => (Ok tt, mkState (requests st) (stdout st) []).

(** A [for] loop whose body may raise *)
Fixpoint for_each {A : Type} (items : list A) (body : A -> M unit) : M unit :=
  match items with
  | [] => ret tt
  | x :: rest => body x ;;; for_each rest body
  end.

Definition base_url : string := "http://ergast.com/api/f1/".

(** A dict whose keys are driver identifiers taken from a payload (any
    hashable value; keys are compared with [==], as Python does). *)
Definition keyed : Type := list (pyval * pyval).

Fixpoint keyed_find (k : pyval) (d : keyed) : option pyval :=
  match d with
  | [] => None
  | (k', v) :: rest => if py_eq k' k then Some v else keyed_find k rest
  end.

(** [d[k] = v]: an existing key keeps its place. *)
Fixpoint keyed_store (k v : pyval) (d : keyed) : keyed :=
  match d with
  | [] => [(k, v)]
  | (k', v') :: rest =>
      if py_eq k' k then (k', v) :: rest else (k', v') :: keyed_store k v rest
  end.

(** [d.get(k, default)] *)
Definition keyed_get (d : keyed) (k default : pyval) : outcome pyval :=
  if hashable k then
    match keyed_find k d with
    | Some v => Ok v
    | None => Ok default
    end
  else Raise TypeError.

Fixpoint map_result {A B : Type} (f : A -> outcome B) (items : list A)
  : outcome (list B) :=
  match items with
  | [] => Ok []
  | x :: rest => y <~ f x ;; ys <~ map_result f rest ;; Ok (y :: ys)
  end.

Section Script.

(** [repr] of a list or a dict, which [str] falls back to; the script only
    reaches it when a payload carries a container where text is expected. *)
Variable py_repr : pyval -> string.

(** [str(v)], what an f-string field formats [v] with *)
Definition py_str (v : pyval) : string :=
  match v with
  | PNone => "None"
  | PBool true => "True"
  | PBool false => "False"
  | PInt z => str_of_int z
  | PStr s => s
  | PList _ | PDict _ => py_repr v
  end.

(** ** Endpoint fetchers *)

Definition race_url (season round_number : Z) : string :=
  base_url +s+ str_of_int season +s+ "/" +s+ str_of_int round_number
  +s+ ".json".

Definition standings_url (season round_number : Z) : string :=
  base_url +s+ str_of_int season +s+ "/" +s+ str_of_int round_number
  +s+ "/driverStandings.json".

Definition results_url (season round_number : Z) : string :=
  base_url +s+ str_of_int season +s+ "/" +s+ str_of_int round_number
  +s+ "/results.json".

Definition qualifying_url (season round_number : Z) : string :=
  base_url +s+ str_of_int season +s+ "/" +s+ str_of_int round_number
  +s+ "/qualifying.json".

Definition pitstops_url (season round_number : Z) (driver_id : pyval)
  : string :=
  base_url +s+ str_of_int season +s+ "/" +s+ str_of_int round_number
  +s+ "/drivers/" +s+ py_str driver_id +s+ "/pitstops.json".

(** [response.json()["MRData"][table][field]] *)
Definition mrdata (response : response) (table field : string)
  : outcome pyval :=
  a <~ getitem (json response) "MRData" ;;
  b <~ getitem a table ;;
  getitem b field.

Definition fetch_race_data (season round_number : Z) : M pyval :=
  response <- requests_get (race_url season round_number) ;;
  if status_code response =? 200 then
    races <- lift (mrdata response "RaceTable" "Races") ;;
    if truthy races then
      lift (getitem0 races)
    else
      print ("[INFO] No race data found for Season " +s+ str_of_int season
             +s+ ", Round " +s+ str_of_int round_number +s+ ". Skipping...")
      ;;; ret PNone
  else
    print ("[ERROR] Failed to fetch data for Season " +s+ str_of_int season
           +s+ ", Round " +s+ str_of_int round_number
           +s+ ". HTTP Status: " +s+ str_of_int (status_code response))
    ;;; ret PNone.

(** The part of [fetch_driver_standings] after the request *)
Definition driver_standings_of (response : response) : outcome pyval :=
  if status_code response =? 200 then
    data <~ mrdata response "StandingsTable" "StandingsLists" ;;
    if truthy data then
      n <~ py_len data ;;
      if n >? 0 then
        first <~ getitem0 data ;;
        getitem first "DriverStandings"
      else Ok (PList [])
    else Ok (PList [])
  else Ok (PList []).

Definition fetch_driver_standings (season round_number : Z) : M pyval :=
  response <- requests_get (standings_url season round_number) ;;
  lift (driver_standings_of response).

(** The part of [fetch_race_results] after the request *)
Definition race_results_of (response : response) : outcome pyval :=
  if status_code response =? 200 then
    race_table <~ mrdata response "RaceTable" "Races" ;;
    if truthy race_table then
      first <~ getitem0 race_table ;;
      getitem first "Results"
    else Ok (PList [])
  else Ok (PList []).

Definition fetch_race_results (season round_number : Z) : M pyval :=
  response <- requests_get (results_url season round_number) ;;
  lift (race_results_of response).

(** One turn of the loop of [fetch_qualifying_results] *)
Definition qualifying_entry (qualifying_data : keyed) (entry : pyval)
  : outcome keyed :=
  driver <~ getitem entry "Driver" ;;
  driver_id <~ getitem driver "driverId" ;;
  position <~ getitem entry "position" ;;
  q1 <~ py_get entry "Q1" (PStr "N/A") ;;
  q2 <~ py_get entry "Q2" (PStr "N/A") ;;
  q3 <~ py_get entry "Q3" (PStr "N/A") ;;
  if hashable driver_id then
    Ok (keyed_store driver_id
          (PDict [("position", position); ("Q1", q1); ("Q2", q2); ("Q3", q3)])
          qualifying_data)
  else Raise TypeError.

Fixpoint qualifying_entries (qualifying_data : keyed) (entries : list pyval)
  : outcome keyed :=
  match entries with
  | [] => Ok qualifying_data
  | entry :: rest =>
      qualifying_data' <~ qualifying_entry qualifying_data entry ;;
      qualifying_entries qualifying_data' rest
  end.

(** The part of [fetch_qualifying_results] after the request *)
Definition qualifying_results_of (response : response) : outcome keyed :=
  let qualifying_data : keyed := [] in
  if status_code response =? 200 then
    data <~ mrdata response "RaceTable" "Races" ;;
    if truthy data then
      n <~ py_len data ;;
      if n >? 0 then
        first <~ getitem0 data ;;
        present <~ py_in "QualifyingResults" first ;;
        if present then
          first <~ getitem0 data ;;
          listed <~ getitem first "QualifyingResults" ;;
          entries <~ py_iter listed ;;
          qualifying_entries qualifying_data entries
        else Ok qualifying_data
      else Ok qualifying_data
    else Ok qualifying_data
  else Ok qualifying_data.

Definition fetch_qualifying_results (season round_number : Z) : M keyed :=
  response <- requests_get (qualifying_url season round_number) ;;
  lift (qualifying_results_of response).

Definition status_url (season : Z) (driver_id : pyval) : string :=
  base_url +s+ str_of_int season +s+ "/drivers/" +s+ py_str driver_id
  +s+ "/status.json".

(** The part of [fetch_finishing_status_for_season_driver] after the
    request *)
Definition finishing_status_of (response : response) : outcome pyval :=
  if status_code response =? 200 then
    mrdata response "StatusTable" "Status"
  else Ok (PList []).

Definition fetch_finishing_status_for_season_driver
    (season : Z) (driver_id : pyval) : M pyval :=
  response <- requests_get (status_url season driver_id) ;;
  lift (finishing_status_of response).

(** The part of [fetch_pitstops] after the request *)
Definition pitstops_of (response : response) : outcome pyval :=
  if status_code response =? 200 then
    race_table <~ mrdata response "RaceTable" "Races" ;;
    if truthy race_table then
      first <~ getitem0 race_table ;;
      present <~ py_in "PitStops" first ;;
      if present then
        first <~ getitem0 race_table ;;
        getitem first "PitStops"
      else Ok (PList [])
    else Ok (PList [])
  else Ok (PList []).

Definition fetch_pitstops (season round_number : Z) (driver_id : pyval)
  : M pyval :=
  response <- requests_get (pitstops_url season round_number driver_id) ;;
  lift (pitstops_of response).

(** ** The round aggregator *)

(** [next((s for s in standings if s["Driver"]["driverId"] == driver_id),
    None)], on the items of [standings] *)
Fixpoint first_standing (items : list pyval) (driver_id : pyval)
  : outcome pyval :=
  match items with
  | [] => Ok PNone
  | s :: rest =>
      driver <~ getitem s "Driver" ;;
      id <~ getitem driver "driverId" ;;
      if py_eq id driver_id then Ok s else first_standing rest driver_id
  end.

(** The f-string of one pit stop *)
Definition pitstop_text (p : pyval) : outcome string :=
  stop <~ getitem p "stop" ;;
  lap <~ getitem p "lap" ;;
  duration <~ getitem p "duration" ;;
  Ok ("Stop " +s+ py_str stop +s+ " @Lap " +s+ py_str lap
      +s+ " (Duration=" +s+ py_str duration +s+ "s)").

(** ["; ".join([...]) if pitstops else "No Pitstops"] *)
Definition pitstop_details_of (pitstops : pyval) : outcome pyval :=
  if truthy pitstops then
    items <~ py_iter pitstops ;;
    texts <~ map_result pitstop_text items ;;
    Ok (PStr (String.concat "; " texts))
  else Ok (PStr "No Pitstops").

(** The dict that [main] appends for one result *)
Definition build_row (season round_number : Z)
    (race_name circuit_name location race_date : pyval)
    (driver constructor driver_id driver_standing : pyval)
    (qual_position q1_time q2_time q3_time : pyval)
    (num_pitstops : Z) (pitstop_details finishing_status result : pyval)
  : outcome pyval :=
  given_name <~ getitem driver "givenName" ;;
  family_name <~ getitem driver "familyName" ;;
  nationality <~ getitem driver "nationality" ;;
  constructor_name <~ getitem constructor "name" ;;
  grid <~ getitem result "grid" ;;
  position <~ getitem result "position" ;;
  timed <~ py_in "Time" result ;;
  time_or_status <~ (if timed then
                       t <~ getitem result "Time" ;; getitem t "time"
                     else Ok finishing_status) ;;
  points <~ getitem result "points" ;;
  laps <~ getitem result "laps" ;;
  total_points <~ (if truthy driver_standing then
                     getitem driver_standing "points"
                   else Ok (PStr "N/A")) ;;
  Ok (PDict
        [("Season", PInt season);
         ("Round", PInt round_number);
         ("Race Name", race_name);
         ("Circuit Name", circuit_name);
         ("Location", location);
         ("Race Date", race_date);
         ("Driver Name",
          PStr (py_str given_name +s+ " " +s+ py_str family_name));
         ("Driver ID", driver_id);
         ("Driver Nationality", nationality);
         ("Constructor", constructor_name);
         ("Qualifying Position", qual_position);
         ("Q1 Time", q1_time);
         ("Q2 Time", q2_time);
         ("Q3 Time", q3_time);
         ("Starting Grid Position", grid);
         ("Final Position", position);
         ("Finishing Status", finishing_status);
         ("Time/Status", time_or_status);
         ("Points", points);
         ("Laps Completed", laps);
         ("Driver Total Points", total_points);
         ("Pit Stop Count", PInt num_pitstops);
         ("Pit Stop Details", pitstop_details)]).

(** The body of [for result in race_results] *)
Definition result_body (season round_number : Z)
    (race_name circuit_name location race_date standings : pyval)
    (qualifying_data : keyed) (result : pyval) : M unit :=
  driver <- lift (getitem result "Driver") ;;
  constructor <- lift (getitem result "Constructor") ;;
  driver_id <- lift (getitem driver "driverId") ;;
  driver_standing <- lift (items <~ py_iter standings ;;
                           first_standing items driver_id) ;;
  qual_info <- lift (keyed_get qualifying_data driver_id (PDict [])) ;;
  qual_position <- lift (py_get qual_info "position" (PStr "N/A")) ;;
  q1_time <- lift (py_get qual_info "Q1" (PStr "N/A")) ;;
  q2_time <- lift (py_get qual_info "Q2" (PStr "N/A")) ;;
  q3_time <- lift (py_get qual_info "Q3" (PStr "N/A")) ;;
  pitstops <- fetch_pitstops season round_number driver_id ;;
  num_pitstops <- lift (py_len pitstops) ;;
  pitstop_details <- lift (pitstop_details_of pitstops) ;;
  pitstop_details <- lift (pitstop_details_of pitstops) ;;
  finishing_status <- lift (getitem result "status") ;;
  row <- lift (build_row season round_number
                 race_name circuit_name location race_date
                 driver constructor driver_id driver_standing
                 qual_position q1_time q2_time q3_time
                 num_pitstops pitstop_details finishing_status result) ;;
  append_row row.

(** The body of [for round_number in ...]; [continue] is the early [ret]. *)
Definition round_body (season round_number : Z) : M unit :=
  race <- fetch_race_data season round_number ;;
  if negb (truthy race) then ret tt
  else
    race_name <- lift (getitem race "raceName") ;;
    circuit_name <- lift (circuit <~ getitem race "Circuit" ;;
                          getitem circuit "circuitName") ;;
    location <- lift (circuit <~ getitem race "Circuit" ;;
                      place <~ getitem circuit "Location" ;;
                      getitem place "locality") ;;
    race_date <- lift (getitem race "date") ;;
    race_results <- fetch_race_results season round_number ;;
    standings <- fetch_driver_standings season round_number ;;
    qualifying_data <- fetch_qualifying_results season round_number ;;
    results <- lift (py_iter race_results) ;;
    for_each results
      (result_body season round_number
         race_name circuit_name location race_date standings
         qualifying_data).

(** ** The enumerator *)

Definition start_season : Z := 2010.
Definition end_season : Z := 2024.

(** The rounds probed in each season: [range(1, 30)] *)
Definition round_numbers : list Z := range 1 30.

Definition season_body (season : Z) : M unit :=
  for_each round_numbers (round_body season) ;;;
  print ("Collected data for Season -  " +s+ str_of_int season).

(** [main], up to the hand-over of [all_race_data] to the CSV writer *)
Definition main : M unit :=
  clear_rows ;;;
  for_each (range start_season (end_season + 1)) season_body ;;;
  print "Enhanced race data saved to 'f1_enhanced_race_data_final.csv'.".

(** A run of the script against a given service *)
Definition empty_state : state := mkState [] [] [].

Definition run (srv : http) : outcome unit * state := main srv empty_state.

End Script.

(** ** A mock service: season 2021, round 1, two drivers *)

Module Mock.

Definition repr (_ : pyval) : string := "<container>".

Definition wrap (table field : string) (items : list pyval) : pyval :=
  PDict [("MRData", PDict [(table, PDict [(field, PList items)])])].

Definition hamilton : pyval :=
  PDict [("driverId", PStr "hamilton"); ("givenName", PStr "Lewis");
         ("familyName", PStr "Hamilton"); ("nationality", PStr "British")].

Definition mazepin : pyval :=
  PDict [("driverId", PStr "mazepin"); ("givenName", PStr "Nikita");
         ("familyName", PStr "Mazepin"); ("nationality", PStr "Russian")].

Definition race : pyval :=
  PDict [("season", PStr "2021"); ("round", PStr "1");
         ("raceName", PStr "Bahrain Grand Prix");
         ("Circuit",
          PDict [("circuitName", PStr "Bahrain International Circuit");
                 ("Location", PDict [("locality", PStr "Sakhir")])]);
         ("date", PStr "2021-03-28")].

Definition result_hamilton : pyval :=
  PDict [("position", PStr "1"); ("points", PStr "25");
         ("Driver", hamilton);
         ("Constructor", PDict [("name", PStr "Mercedes")]);
         ("grid", PStr "2"); ("laps", PStr "56");
         ("status", PStr "Finished");
         ("Time", PDict [("millis", PStr "5523897");
                         ("time", PStr "1:32:03.897")])].

Definition result_mazepin : pyval :=
  PDict [("position", PStr "20"); ("points", PStr "0");
         ("Driver", mazepin);
         ("Constructor", PDict [("name", PStr "Haas F1 Team")]);
         ("grid", PStr "19"); ("laps", PStr "0");
         ("status", PStr "Retired")].

Definition results : list pyval := [result_hamilton; result_mazepin].

Definition standings : list pyval :=
  [PDict [("position", PStr "1"); ("points", PStr "25");
          ("Driver", hamilton)]].

Definition qualifying : list pyval :=
  [PDict [("position", PStr "2"); ("Driver", hamilton);
          ("Q1", PStr "1:30.617"); ("Q2", PStr "1:30.085");
          ("Q3", PStr "1:29.385")];
   PDict [("position", PStr "20"); ("Driver", mazepin);
          ("Q1", PStr "1:33.273")]].

Definition stops : list pyval :=
  [PDict [("stop", PStr "1"); ("lap", PStr "15"); ("duration", PStr "2.4")];
   PDict [("stop", PStr "2"); ("lap", PStr "40"); ("duration", PStr "3.1")]].

Definition not_found : response := mkResponse 404 PNone.

(** The mapping [fetch_qualifying_results] builds from [qualifying] *)
Definition qualifying_data : keyed :=
  [(PStr "hamilton",
    PDict [("position", PStr "2"); ("Q1", PStr "1:30.617");
           ("Q2", PStr "1:30.085"); ("Q3", PStr "1:29.385")]);
   (PStr "mazepin",
    PDict [("position", PStr "20"); ("Q1", PStr "1:33.273");
           ("Q2", PStr "N/A"); ("Q3", PStr "N/A")])].

Definition srv : http := fun url =>
  if String.eqb url (race_url 2021 1) then
    mkResponse 200 (wrap "RaceTable" "Races" [race])
  else if String.eqb url (results_url 2021 1) then
    mkResponse 200
      (wrap "RaceTable" "Races" [PDict [("Results", PList results)]])
  else if String.eqb url (standings_url 2021 1) then
    mkResponse 200
      (wrap "StandingsTable" "StandingsLists"
         [PDict [("DriverStandings", PList standings)]])
  else if String.eqb url (qualifying_url 2021 1) then
    mkResponse 200
      (wrap "RaceTable" "Races"
         [PDict [("QualifyingResults", PList qualifying)]])
  else if String.eqb url (pitstops_url repr 2021 1 (PStr "hamilton")) then
    mkResponse 200
      (wrap "RaceTable" "Races" [PDict [("PitStops", PList stops)]])
  else if String.eqb url (pitstops_url repr 2021 1 (PStr "mazepin")) then
    mkResponse 200 (wrap "RaceTable" "Races" [])
  else not_found.

(** The turn of the result loop of round 1 of 2021 for [res] *)
Definition join (res : pyval) : M unit :=
  result_body repr 2021 1
    (PStr "Bahrain Grand Prix") (PStr "Bahrain International Circuit")
    (PStr "Sakhir") (PStr "2021-03-28")
    (PList standings) qualifying_data res.

End Mock.

(** A service that answers every request with a success status and a body
    in which [MRData] has no [RaceTable]. *)
Module MockBare.

Definition srv : http := fun _ => mkResponse 200 (PDict [("MRData", PDict [])]).

End MockBare.

(** A service on which every round of every season, round 30 included, has
    a race (without results, standings or qualifying). *)
Module MockCalendar.

Definition race : pyval :=
  PDict [("raceName", PStr "Grand Prix");
         ("Circuit",
          PDict [("circuitName", PStr "Circuit");
                 ("Location", PDict [("locality", PStr "Town")])]);
         ("date", PStr "2010-01-01");
         ("Results", PList [])].

Definition srv : http := fun _ =>
  mkResponse 200
    (PDict [("MRData",
             PDict [("RaceTable", PDict [("Races", PList [race])]);
                    ("StandingsTable",
                     PDict [("StandingsLists", PList [])])])]).

End MockCalendar.

(** ** Vocabulary of the statements *)

(** The value a missing optional field is given *)
Definition or_na (field : option pyval) : pyval :=
  match field with
  | Some x => x
  | None => PStr "N/A"
  end.

(** The entries of the [QualifyingResults] list of a qualifying payload *)
Definition listed_qualifying (response : response) (entries : list pyval)
  : Prop :=
  exists data first listed,
    mrdata response "RaceTable" "Races" = Ok data /\
    getitem0 data = Ok first /\
    getitem first "QualifyingResults" = Ok listed /\
    py_iter listed = Ok entries.

(** The value [fetch_qualifying_results] stores for [entry] *)
Definition qualifying_value_of (entry : list (string * pyval)) (v : pyval)
  : Prop :=
  exists position,
    dict_get "position" entry = Some position /\
    v = PDict [("position", position);
               ("Q1", or_na (dict_get "Q1" entry));
               ("Q2", or_na (dict_get "Q2" entry));
               ("Q3", or_na (dict_get "Q3" entry))].

(** The driver identifier of a standing or a result *)
Definition driver_id_of (v : pyval) : outcome pyval :=
  driver <~ getitem v "Driver" ;; getitem driver "driverId".

(** [s["Driver"]["driverId"] == driver_id], false where [s] has no such
    field *)
Definition standing_matches (driver_id s : pyval) : bool :=
  match driver_id_of s with
  | Ok id => py_eq id driver_id
  | Raise _ => false
  end.

(** The first standing of the driver, [None] without one *)
Definition first_match (items : list pyval) (driver_id : pyval) : pyval :=
  match find (standing_matches driver_id) items with
  | Some s => s
  | None => PNone
  end.

(** A standing as the data model has it: a driver identifier and points *)
Definition DriverStanding (s : pyval) : Prop :=
  (exists id, driver_id_of s = Ok id) /\ (exists p, getitem s "points" = Ok p).

(** The text of one pit stop *)
Definition stop_text (py_repr : pyval -> string) (p : pyval) (text : string)
  : Prop :=
  exists stop lap duration,
    getitem p "stop" = Ok stop /\
    getitem p "lap" = Ok lap /\
    getitem p "duration" = Ok duration /\
    text = "Stop " +s+ py_str py_repr stop +s+ " @Lap " +s+ py_str py_repr lap
           +s+ " (Duration=" +s+ py_str py_repr duration +s+ "s)".

(** [v] has the field [k] *)
Definition has (v : pyval) (k : string) : Prop := exists x, getitem v k = Ok x.

(** A race as the data model has it: name, circuit, locality and date *)
Definition RaceRecord (race : pyval) : Prop :=
  has race "raceName" /\ has race "date" /\
  exists circuit place,
    getitem race "Circuit" = Ok circuit /\
    has circuit "circuitName" /\
    getitem circuit "Location" = Ok place /\
    has place "locality".

(** A result as the data model has it: the driver with an identifier that
    can key a dict, names and nationality, the constructor's name, grid,
    position, status, points and laps; a [Time], when there is one, has a
    [time]. *)
Definition ResultEntry (res : pyval) : Prop :=
  exists driver constructor driver_id,
    getitem res "Driver" = Ok driver /\
    getitem res "Constructor" = Ok constructor /\
    getitem driver "driverId" = Ok driver_id /\
    hashable driver_id = true /\
    has driver "givenName" /\ has driver "familyName" /\
    has driver "nationality" /\ has constructor "name" /\
    has res "grid" /\ has res "position" /\ has res "status" /\
    has res "points" /\ has res "laps" /\
    forall t, getitem res "Time" = Ok t -> has t "time".

(** A pit stop as the data model has it *)
Definition PitStopEntry (p : pyval) : Prop :=
  has p "stop" /\ has p "lap" /\ has p "duration".

(** [row] is the row of the result [res] *)
Definition row_joins (res row : pyval) : Prop :=
  getitem row "Driver ID" = driver_id_of res /\
  getitem row "Starting Grid Position" = getitem res "grid" /\
  getitem row "Final Position" = getitem res "position" /\
  getitem row "Finishing Status" = getitem res "status" /\
  getitem row "Points" = getitem res "points" /\
  getitem row "Laps Completed" = getitem res "laps".

(** [m] reads the service only at the URLs it requests: from any state it
    extends the request log by some URLs, and against a service that
    answers those URLs alike it does the same. *)
Definition reads_only_fetched {A : Type} (m : M A) : Prop :=
  forall srv st,
    exists urls,
      requests (snd (m srv st)) = requests st ++ urls /\
      forall srv' : http,
        (forall url, In url urls -> srv' url = srv url) ->
        m srv' st = m srv st.

(** The mock service with one more URL, which the script never requests,
    answered differently *)
Module MockOther.

Definition srv : http := fun url =>
  if String.eqb url "http://ergast.com/api/f1/1950/1.json" then
    mkResponse 200 (PStr "unrelated")
  else Mock.srv url.

End MockOther.

(** ** Vocabulary of the further properties *)

(** The keys of a row, in the order [main] writes them *)
Definition columns : list string :=
  ["Season"; "Round"; "Race Name"; "Circuit Name"; "Location"; "Race Date";
   "Driver Name"; "Driver ID"; "Driver Nationality"; "Constructor";
   "Qualifying Position"; "Q1 Time"; "Q2 Time"; "Q3 Time";
   "Starting Grid Position"; "Final Position"; "Finishing Status";
   "Time/Status"; "Points"; "Laps Completed"; "Driver Total Points";
   "Pit Stop Count"; "Pit Stop Details"].

(** [row] is a dict with the keys [columns], made in [round_number] of
    [season] *)
Definition row_of_round (season round_number : Z) (row : pyval) : Prop :=
  exists d,
    row = PDict d /\ map fst d = columns /\
    dict_get "Season" d = Some (PInt season) /\
    dict_get "Round" d = Some (PInt round_number).

(** [url] is one of the five URLs [main] builds for a round *)
Definition url_of_round (py_repr : pyval -> string)
    (season round_number : Z) (url : string) : Prop :=
  url = race_url season round_number \/
  url = results_url season round_number \/
  url = standings_url season round_number \/
  url = qualifying_url season round_number \/
  exists driver_id, url = pitstops_url py_repr season round_number driver_id.

(** What [m] adds to the state: from any state it only extends the request
    log, the printed lines and the rows, with URLs in [Pu] and rows in
    [Pr]. *)
Definition appends {A : Type} (Pu : string -> Prop) (Pr : pyval -> Prop)
    (m : M A) : Prop :=
  forall srv st,
    exists urls lines rows,
      snd (m srv st) =
        mkState (requests st ++ urls) (stdout st ++ lines)
                (all_race_data st ++ rows) /\
      Forall Pu urls /\ Forall Pr rows.

(** The season and round written in a row *)
Definition season_round (row : pyval) : option (Z * Z) :=
  match getitem row "Season", getitem row "Round" with
  | Ok (PInt season), Ok (PInt round_number) => Some (season, round_number)
  | _, _ => None
  end.

(** Ascending season, then ascending round *)
Definition season_round_le (a b : Z * Z) : Prop :=
  fst a < fst b \/ (fst a = fst b /\ snd a <= snd b).

(** The binding [fetch_qualifying_results] makes for [entry] *)
Definition qualifying_binding (entry : pyval) : outcome (pyval * pyval) :=
  driver_id <~ driver_id_of entry ;;
  position <~ getitem entry "position" ;;
  q1 <~ py_get entry "Q1" (PStr "N/A") ;;
  q2 <~ py_get entry "Q2" (PStr "N/A") ;;
  q3 <~ py_get entry "Q3" (PStr "N/A") ;;
  Ok (driver_id,
      PDict [("position", position); ("Q1", q1); ("Q2", q2); ("Q3", q3)]).

(** No two of the keys are equal, an earlier one compared with a later
    one as the dict does *)
Fixpoint distinct_keys (keys : list pyval) : Prop :=
  match keys with
  | [] => True
  | k :: rest => Forall (fun k' => py_eq k k' = false) rest /\
                 distinct_keys rest
  end.

(** A service on which round 1 of 2021 has a race that is an empty
    object *)
Module MockEmptyRace.

Definition srv : http := fun _ =>
  mkResponse 200 (Mock.wrap "RaceTable" "Races" [PDict []]).

End MockEmptyRace.

(** A service on which every race, of whatever endpoint, is an object with
    a name, a circuit and a date and nothing else: no results, no
    qualifying, no pit stops *)
Module MockNoResults.

Definition srv : http := fun _ =>
  mkResponse 200 (Mock.wrap "RaceTable" "Races" [Mock.race]).

End MockNoResults.

(** [s] without its first [n] characters *)
Fixpoint drop (n : nat) (s : string) : string :=
  match n, s with
  | O, _ => s
  | S n', String _ rest => drop n' rest
  | S _, EmptyString => EmptyString
  end.

(** The last twelve characters of [s] *)
Definition ending (s : string) : string := drop (String.length s - 12) s.

Arguments race_url : simpl never.
Arguments standings_url : simpl never.
Arguments results_url : simpl never.
Arguments qualifying_url : simpl never.
Arguments pitstops_url : simpl never.
Arguments status_url : simpl never.
Arguments str_of_int : simpl never.
Arguments String.append : simpl never.

(** ** Laws of the monad *)

Lemma bind_lift {A B : Type} (r : outcome A) (k : A -> M B) srv st :
  bind (lift r) k srv st =
  match r with
  | Ok a => k a srv st
  | Raise e => (Raise e, st)
  end.
Proof. unfold bind, lift. destruct r; reflexivity. Qed.

Lemma bind_lift_ok {A B : Type} (r : outcome A) (a : A) (k : A -> M B) srv st :
  r = Ok a -> bind (lift r) k srv st = k a srv st.
Proof. intros ->. reflexivity. Qed.

Lemma bind_requests_get {B : Type} url (k : response -> M B) srv st :
  bind (requests_get url) k srv st =
  k (srv url) srv
    (mkState (requests st ++ [url]) (stdout st) (all_race_data st)).
Proof. reflexivity. Qed.

Lemma for_each_cons {A : Type} (x : A) rest (body : A -> M unit) srv st :
  for_each (x :: rest) body srv st =
  match body x srv st with
  | (Ok _, st') => for_each rest body srv st'
  | (Raise e, st') => (Raise e, st')
  end.
Proof. reflexivity. Qed.

Lemma rbind_ok {A B : Type} (r : outcome A) (k : A -> outcome B) (b : B) :
  rbind r k = Ok b -> exists a, r = Ok a /\ k a = Ok b.
Proof. destruct r; simpl; intros H; [eauto | discriminate]. Qed.

(** ** The race-metadata fetcher *)

Lemma fetch_race_data_eq season round_number srv st :
  fetch_race_data season round_number srv st =
  let response := srv (race_url season round_number) in
  let st1 := mkState (requests st ++ [race_url season round_number])
                     (stdout st) (all_race_data st) in
  if status_code response =? 200 then
    match mrdata response "RaceTable" "Races" with
    | Ok races =>
        if truthy races then (getitem0 races, st1)
        else
          (Ok PNone,
           mkState (requests st1)
             (stdout st1 ++
              ["[INFO] No race data found for Season " +s+ str_of_int season
               +s+ ", Round " +s+ str_of_int round_number
               +s+ ". Skipping..."])
             (all_race_data st1))
    | Raise e => (Raise e, st1)
    end
  else
    (Ok PNone,
     mkState (requests st1)
       (stdout st1 ++
        ["[ERROR] Failed to fetch data for Season " +s+ str_of_int season
         +s+ ", Round " +s+ str_of_int round_number
         +s+ ". HTTP Status: " +s+ str_of_int (status_code response)])
       (all_race_data st1)).
Proof.
  unfold fetch_race_data. rewrite bind_requests_get. cbv zeta.
  destruct (status_code (srv (race_url season round_number)) =? 200).
  - rewrite bind_lift.
    destruct (mrdata (srv (race_url season round_number)) "RaceTable" "Races")
      as [races|e]; [|reflexivity].
    destruct (truthy races); reflexivity.
  - reflexivity.
Qed.

(** What a call of [fetch_race_data] leaves behind: one more request, the
    rows untouched. *)
Lemma fetch_race_data_state season round_number srv st r st' :
  fetch_race_data season round_number srv st = (r, st') ->
  requests st' = requests st ++ [race_url season round_number] /\
  all_race_data st' = all_race_data st.
Proof.
  rewrite fetch_race_data_eq. cbv zeta.
  destruct (status_code (srv (race_url season round_number)) =? 200).
  - destruct (mrdata (srv (race_url season round_number)) "RaceTable" "Races")
      as [races|e].
    + destruct (truthy races); intros H; inversion H; subst; simpl; auto.
    + intros H; inversion H; subst; simpl; auto.
  - intros H; inversion H; subst; simpl; auto.
Qed.

(** C10: on a success response whose race list is not empty,
    [fetch_race_data] returns the first race of the list and nothing else of
    it; the other races of the payload play no part. *)
Theorem fetch_race_data_returns_first_race :
  forall srv season round_number st first others,
    status_code (srv (race_url season round_number)) = 200 ->
    mrdata (srv (race_url season round_number)) "RaceTable" "Races"
      = Ok (PList (first :: others)) ->
    fetch_race_data season round_number srv st =
    (Ok first,
     mkState (requests st ++ [race_url season round_number])
             (stdout st) (all_race_data st)).
Proof.
  intros srv season round_number st first others Hstatus Hraces.
  rewrite fetch_race_data_eq. cbv zeta.
  rewrite Hstatus, Hraces. reflexivity.
Qed.

Lemma fetch_race_data_returns_first_race_witness :
  fetch_race_data 2021 1 Mock.srv empty_state =
  (Ok Mock.race,
   mkState ([] ++ [race_url 2021 1]) [] []).
Proof.
  apply (fetch_race_data_returns_first_race Mock.srv 2021 1 empty_state
           Mock.race []); reflexivity.
Defined.

Lemma round_body_skip py_repr season round_number srv st race st1 :
  fetch_race_data season round_number srv st = (Ok race, st1) ->
  truthy race = false ->
  round_body py_repr season round_number srv st = (Ok tt, st1).
Proof.
  intros Hfetch Hfalsy. unfold round_body, bind at 1.
  rewrite Hfetch, Hfalsy. reflexivity.
Qed.

Lemma round_body_raise py_repr season round_number srv st e st1 :
  fetch_race_data season round_number srv st = (Raise e, st1) ->
  round_body py_repr season round_number srv st = (Raise e, st1).
Proof.
  intros Hfetch. unfold round_body, bind at 1. rewrite Hfetch. reflexivity.
Qed.

(** C1: when [fetch_race_data] returns [None] for a round, the round body
    ends there without raising: no row is appended, the race URL is the
    only request made for the round, and the loop over the rounds goes on
    with the next one. *)
Theorem absent_race_skips_round :
  forall py_repr srv season round_number st st',
    fetch_race_data season round_number srv st = (Ok PNone, st') ->
    round_body py_repr season round_number srv st = (Ok tt, st') /\
    all_race_data st' = all_race_data st /\
    requests st' = requests st ++ [race_url season round_number] /\
    forall later,
      for_each (round_number :: later) (round_body py_repr season) srv st =
      for_each later (round_body py_repr season) srv st'.
Proof.
  intros py_repr srv season round_number st st' Hfetch.
  assert (Hbody : round_body py_repr season round_number srv st
                  = (Ok tt, st'))
    by (eapply round_body_skip; [exact Hfetch | reflexivity]).
  destruct (fetch_race_data_state _ _ _ _ _ _ Hfetch) as [Hreq Hrows].
  repeat split; auto.
  intros later. rewrite for_each_cons, Hbody. reflexivity.
Qed.

Lemma absent_race_skips_round_witness :
  let st' := snd (fetch_race_data 2021 2 Mock.srv empty_state) in
  round_body Mock.repr 2021 2 Mock.srv empty_state = (Ok tt, st') /\
  all_race_data st' = all_race_data empty_state /\
  requests st' = requests empty_state ++ [race_url 2021 2] /\
  forall later,
    for_each (2 :: later) (round_body Mock.repr 2021) Mock.srv empty_state =
    for_each later (round_body Mock.repr 2021) Mock.srv st'.
Proof.
  exact (absent_race_skips_round Mock.repr Mock.srv 2021 2 empty_state
           (snd (fetch_race_data 2021 2 Mock.srv empty_state)) eq_refl).
Defined.

(** ** The qualifying fetcher *)

Lemma keyed_store_in k0 v0 d k v :
  In (k, v) (keyed_store k0 v0 d) -> v = v0 \/ In (k, v) d.
Proof.
  induction d as [|[k' v'] rest IH]; simpl.
  - intros [H|[]]. inversion H. auto.
  - destruct (py_eq k' k0); simpl.
    + intros [H|H]; [inversion H; auto | auto].
    + intros [H|H]; [auto | destruct (IH H); auto].
Qed.

Lemma qualifying_entry_inv qd entry qd' :
  qualifying_entry qd entry = Ok qd' ->
  exists e id v,
    entry = PDict e /\ qualifying_value_of e v /\ qd' = keyed_store id v qd.
Proof.
  unfold qualifying_entry. intros H.
  destruct entry as [| | | | |e]; try discriminate.
  simpl in H.
  destruct (dict_get "Driver" e) as [driver|]; [|discriminate]. simpl in H.
  destruct (getitem driver "driverId") as [id|]; [|discriminate]. simpl in H.
  destruct (dict_get "position" e) as [position|] eqn:Hpos; [|discriminate].
  simpl in H.
  exists e, id,
    (PDict [("position", position);
            ("Q1", or_na (dict_get "Q1" e));
            ("Q2", or_na (dict_get "Q2" e));
            ("Q3", or_na (dict_get "Q3" e))]).
  split; [reflexivity|]. split; [exists position; auto|].
  destruct (dict_get "Q1" e), (dict_get "Q2" e), (dict_get "Q3" e);
    simpl in H; destruct (hashable id); inversion H; reflexivity.
Qed.

Lemma qualifying_entries_inv entries : forall qd qd',
  qualifying_entries qd entries = Ok qd' ->
  forall k v, In (k, v) qd' ->
    In (k, v) qd \/
    exists e, In (PDict e) entries /\ qualifying_value_of e v.
Proof.
  induction entries as [|entry rest IH]; simpl; intros qd qd' H k v Hin.
  - inversion H; subst. auto.
  - apply rbind_ok in H. destruct H as [qd1 [H1 H2]].
    destruct (qualifying_entry_inv _ _ _ H1) as [e [id [v0 [-> [Hv ->]]]]].
    destruct (IH _ _ H2 k v Hin) as [Hold|[e' [He' Hv']]].
    + apply keyed_store_in in Hold. destruct Hold as [->|Hold]; [|auto].
      right. exists e. split; [left; reflexivity | assumption].
    + right. exists e'. split; [right; assumption | assumption].
Qed.

(** Every value of the mapping is one of the four-key dicts. *)
Lemma qualifying_results_of_inv response qd k v :
  qualifying_results_of response = Ok qd ->
  In (k, v) qd ->
  exists entries e,
    listed_qualifying response entries /\
    In (PDict e) entries /\ qualifying_value_of e v.
Proof.
  unfold qualifying_results_of. intros H Hin.
  destruct (status_code response =? 200);
    [|inversion H; subst; destruct Hin].
  destruct (mrdata response "RaceTable" "Races") as [data|] eqn:Hdata;
    [|discriminate]. simpl in H.
  destruct (truthy data); [|inversion H; subst; destruct Hin].
  destruct (py_len data) as [n|]; [|discriminate]. simpl in H.
  destruct (n >? 0); [|inversion H; subst; destruct Hin].
  destruct (getitem0 data) as [first|] eqn:Hfirst; [|discriminate].
  simpl in H.
  destruct (py_in "QualifyingResults" first) as [present|]; [|discriminate].
  simpl in H.
  destruct present; [|inversion H; subst; destruct Hin].
  destruct (getitem first "QualifyingResults") as [listed|] eqn:Hlisted;
    [|discriminate]. simpl in H.
  destruct (py_iter listed) as [entries|] eqn:Hiter; [|discriminate].
  simpl in H.
  destruct (qualifying_entries_inv _ _ _ H k v Hin) as [[]|[e [He Hv]]].
  exists entries, e. split; [|auto].
  exists data, first, listed. auto.
Qed.

Lemma qualifying_values_are_dicts response qd :
  qualifying_results_of response = Ok qd ->
  forall k v, In (k, v) qd -> exists d, v = PDict d.
Proof.
  intros H k v Hin.
  destruct (qualifying_results_of_inv _ _ _ _ H Hin)
    as (entries & e & _ & _ & position & _ & ->).
  eauto.
Qed.

(** C8: every value of the mapping that the qualifying fetcher returns
    carries the three keys Q1, Q2 and Q3; each holds the field of the
    payload entry it was built from, or "N/A" where that entry has no such
    field. *)
Theorem qualifying_entry_has_q1_q2_q3 :
  forall srv season round_number st qualifying_data st' driver_id info,
    fetch_qualifying_results season round_number srv st
      = (Ok qualifying_data, st') ->
    In (driver_id, info) qualifying_data ->
    exists entries entry,
      listed_qualifying (srv (qualifying_url season round_number)) entries /\
      In (PDict entry) entries /\
      getitem info "Q1" = Ok (or_na (dict_get "Q1" entry)) /\
      getitem info "Q2" = Ok (or_na (dict_get "Q2" entry)) /\
      getitem info "Q3" = Ok (or_na (dict_get "Q3" entry)).
Proof.
  intros srv season round_number st qd st' driver_id info Hfetch Hin.
  unfold fetch_qualifying_results in Hfetch.
  rewrite bind_requests_get in Hfetch. unfold lift in Hfetch.
  inversion Hfetch as [[Hqd Hst]].
  destruct (qualifying_results_of_inv _ _ _ _ Hqd Hin)
    as [entries [e [Hlisted [He [position [_ ->]]]]]].
  exists entries, e. repeat split; auto.
Qed.

Lemma qualifying_entry_has_q1_q2_q3_witness :
  exists entries entry,
    listed_qualifying (Mock.srv (qualifying_url 2021 1)) entries /\
    In (PDict entry) entries /\
    Ok (PStr "1:33.273") = Ok (or_na (dict_get "Q1" entry)) /\
    Ok (PStr "N/A") = Ok (or_na (dict_get "Q2" entry)) /\
    Ok (PStr "N/A") = Ok (or_na (dict_get "Q3" entry)).
Proof.
  apply (qualifying_entry_has_q1_q2_q3 Mock.srv 2021 1 empty_state
           Mock.qualifying_data
           (mkState [qualifying_url 2021 1] [] [])
           (PStr "mazepin")
           (PDict [("position", PStr "20"); ("Q1", PStr "1:33.273");
                   ("Q2", PStr "N/A"); ("Q3", PStr "N/A")])).
  - vm_compute. reflexivity.
  - right. left. reflexivity.
Defined.

(** ** Responses without a success status *)

Lemma fetch_race_data_non_success season round_number srv st :
  status_code (srv (race_url season round_number)) <> 200 ->
  fetch_race_data season round_number srv st =
  (Ok PNone,
   mkState (requests st ++ [race_url season round_number])
     (stdout st ++
      ["[ERROR] Failed to fetch data for Season " +s+ str_of_int season
       +s+ ", Round " +s+ str_of_int round_number
       +s+ ". HTTP Status: "
       +s+ str_of_int (status_code (srv (race_url season round_number)))])
     (all_race_data st)).
Proof.
  intros H. rewrite fetch_race_data_eq. cbv zeta.
  apply Z.eqb_neq in H. rewrite H. reflexivity.
Qed.

(** C3, as the code has it: a response whose status is not 200 makes each
    fetcher return its empty value without raising ([None] for the race,
    the empty list for standings, results and pit stops, the empty mapping
    for qualifying), and a round whose race request meets such a response
    ends without raising and without a row.  Nothing catches an exception:
    on a success response whose payload cannot be subscripted down to its
    list, the exception of the subscript leaves the fetcher, the round body
    and the loop over the rounds. *)
Theorem non_success_degrades_missing_field_raises :
  forall response,
    (status_code response <> 200 ->
     driver_standings_of response = Ok (PList []) /\
     race_results_of response = Ok (PList []) /\
     qualifying_results_of response = Ok [] /\
     pitstops_of response = Ok (PList []) /\
     forall py_repr srv season round_number st,
       srv (race_url season round_number) = response ->
       fst (fetch_race_data season round_number srv st) = Ok PNone /\
       fst (round_body py_repr season round_number srv st) = Ok tt /\
       all_race_data (snd (round_body py_repr season round_number srv st))
         = all_race_data st) /\
    (status_code response = 200 ->
     forall e,
       (mrdata response "StandingsTable" "StandingsLists" = Raise e ->
        driver_standings_of response = Raise e) /\
       (mrdata response "RaceTable" "Races" = Raise e ->
        race_results_of response = Raise e /\
        qualifying_results_of response = Raise e /\
        pitstops_of response = Raise e /\
        forall py_repr srv season round_number st later,
          srv (race_url season round_number) = response ->
          fst (fetch_race_data season round_number srv st) = Raise e /\
          fst (round_body py_repr season round_number srv st) = Raise e /\
          fst (for_each (round_number :: later)
                 (round_body py_repr season) srv st) = Raise e)).
Proof.
  intros response. split; intros Hstatus.
  - assert (Hneq : (status_code response =? 200) = false)
      by (apply Z.eqb_neq, Hstatus).
    unfold driver_standings_of, race_results_of, qualifying_results_of,
      pitstops_of.
    rewrite Hneq. do 4 (split; [reflexivity|]).
    intros py_repr srv season round_number st Hsrv.
    assert (Hfetch := fetch_race_data_non_success season round_number srv st).
    rewrite Hsrv in Hfetch. specialize (Hfetch Hstatus).
    rewrite (round_body_skip py_repr _ _ _ _ _ _ Hfetch eq_refl), Hfetch.
    repeat split.
  - intros e. split; [|intros Hraise; split; [|split; [|split]]].
    + intros Hraise. unfold driver_standings_of.
      rewrite Hstatus, Hraise. reflexivity.
    + unfold race_results_of. rewrite Hstatus, Hraise. reflexivity.
    + unfold qualifying_results_of. rewrite Hstatus, Hraise. reflexivity.
    + unfold pitstops_of. rewrite Hstatus, Hraise. reflexivity.
    + intros py_repr srv season round_number st later Hsrv.
      assert (Hfetch := fetch_race_data_eq season round_number srv st).
      cbv zeta in Hfetch. rewrite Hsrv, Hstatus, Hraise in Hfetch.
      cbv beta iota delta [Z.eqb Pos.eqb] in Hfetch.
      rewrite for_each_cons.
      rewrite (round_body_raise py_repr _ _ _ _ _ _ Hfetch), Hfetch.
      repeat split.
Qed.

Lemma non_success_degrades_missing_field_raises_witness :
  (driver_standings_of Mock.not_found = Ok (PList []) /\
   race_results_of Mock.not_found = Ok (PList []) /\
   qualifying_results_of Mock.not_found = Ok [] /\
   pitstops_of Mock.not_found = Ok (PList []) /\
   fst (round_body Mock.repr 2021 2 Mock.srv empty_state) = Ok tt) /\
  (driver_standings_of (MockBare.srv EmptyString) = Raise KeyError /\
   race_results_of (MockBare.srv EmptyString) = Raise KeyError /\
   fst (round_body Mock.repr 2010 1 MockBare.srv empty_state)
     = Raise KeyError).
Proof.
  destruct (non_success_degrades_missing_field_raises Mock.not_found)
    as [Hdegrade _].
  destruct (non_success_degrades_missing_field_raises
              (MockBare.srv EmptyString)) as [_ Hraise].
  assert (H404 : status_code Mock.not_found <> 200) by (simpl; lia).
  destruct (Hdegrade H404) as (H1 & H2 & H3 & H4 & H5).
  destruct (Hraise eq_refl KeyError) as (H6 & H7).
  destruct (H7 eq_refl) as (H8 & _ & _ & H9).
  split.
  - refine (conj H1 (conj H2 (conj H3 (conj H4 _)))).
    exact (proj1 (proj2 (H5 Mock.repr Mock.srv 2021 2 empty_state eq_refl))).
  - refine (conj (H6 eq_refl) (conj H8 _)).
    exact (proj1 (proj2 (H9 Mock.repr MockBare.srv 2010 1 empty_state []
                           eq_refl))).
Defined.

(** The claim of C3 fails as stated: on a success response whose [MRData]
    has no [RaceTable] the subscript raises [KeyError]; nothing catches it,
    so it leaves the round body and ends the whole run. *)
Lemma missing_field_aborts_round :
  round_body Mock.repr 2010 1 MockBare.srv empty_state
    = (Raise KeyError, mkState [race_url 2010 1] [] []) /\
  run Mock.repr MockBare.srv
    = (Raise KeyError, mkState [race_url 2010 1] [] []).
Proof. split; vm_compute; reflexivity. Qed.

(** ** The rounds probed *)

(** C4, on the code: the inner loop runs over [range(1, 30)], which stops at
    round 29.  Against a service where round 30 of 2010 has a race, the run
    ends normally after 15 x 29 rounds of four requests each, and the race
    of round 30 is never asked for. *)
Theorem round_30_is_never_probed :
  round_numbers =
    [1; 2; 3; 4; 5; 6; 7; 8; 9; 10; 11; 12; 13; 14; 15; 16; 17; 18; 19; 20;
     21; 22; 23; 24; 25; 26; 27; 28; 29] /\
  fst (fetch_race_data 2010 30 MockCalendar.srv empty_state)
    = Ok MockCalendar.race /\
  fst (run Mock.repr MockCalendar.srv) = Ok tt /\
  List.length (requests (snd (run Mock.repr MockCalendar.srv)))
    = (15 * 29 * 4)%nat /\
  existsb (String.eqb (race_url 2010 30))
    (requests (snd (run Mock.repr MockCalendar.srv))) = false /\
  existsb (String.eqb (race_url 2010 29))
    (requests (snd (run Mock.repr MockCalendar.srv))) = true.
Proof. repeat split; vm_compute; reflexivity. Qed.

(** ** One result, one row *)

Tactic Notation "bind_step" hyp(H) "as" ident(x) ident(E) :=
  rewrite bind_lift in H;
  match type of H with
  | context [match ?r with Ok _ => _ | Raise _ => _ end] =>
      destruct r as [x|] eqn:E; [|discriminate H]
  end.

Tactic Notation "rbind_step" hyp(H) "as" ident(x) ident(E) :=
  match type of H with
  | rbind ?r _ = Ok _ =>
      destruct r as [x|] eqn:E; [simpl in H|discriminate H]
  end.

(** The fields of a row that was built *)
Lemma build_row_fields py_repr season round_number
    race_name circuit_name location race_date
    driver constructor driver_id driver_standing
    qual_position q1_time q2_time q3_time
    num_pitstops pitstop_details finishing_status res row :
  build_row py_repr season round_number
    race_name circuit_name location race_date
    driver constructor driver_id driver_standing
    qual_position q1_time q2_time q3_time
    num_pitstops pitstop_details finishing_status res = Ok row ->
  getitem row "Season" = Ok (PInt season) /\
  getitem row "Round" = Ok (PInt round_number) /\
  getitem row "Driver ID" = Ok driver_id /\
  getitem row "Starting Grid Position" = getitem res "grid" /\
  getitem row "Final Position" = getitem res "position" /\
  getitem row "Finishing Status" = Ok finishing_status /\
  getitem row "Time/Status" =
    (timed <~ py_in "Time" res ;;
     if timed then t <~ getitem res "Time" ;; getitem t "time"
     else Ok finishing_status) /\
  getitem row "Points" = getitem res "points" /\
  getitem row "Laps Completed" = getitem res "laps" /\
  getitem row "Driver Total Points" =
    (if truthy driver_standing then getitem driver_standing "points"
     else Ok (PStr "N/A")) /\
  getitem row "Pit Stop Count" = Ok (PInt num_pitstops) /\
  getitem row "Pit Stop Details" = Ok pitstop_details.
Proof.
  unfold build_row. intros H.
  rbind_step H as given_name Egiven.
  rbind_step H as family_name Efamily.
  rbind_step H as nationality Enationality.
  rbind_step H as constructor_name Ename.
  rbind_step H as grid Egrid.
  rbind_step H as position Eposition.
  rbind_step H as timed Etimed.
  rbind_step H as time_or_status Etime.
  rbind_step H as points Epoints.
  rbind_step H as laps Elaps.
  rbind_step H as total_points Etotal.
  inversion H; subst row.
  repeat split; try reflexivity; auto.
Qed.

(** What a turn of the loop over the results has done when it ends
    normally: one request, for the pit stops of the driver, and one row. *)
Lemma result_body_inv py_repr season round_number
    race_name circuit_name location race_date standings qualifying_data
    res srv st st' :
  result_body py_repr season round_number
    race_name circuit_name location race_date standings qualifying_data
    res srv st = (Ok tt, st') ->
  exists driver constructor driver_id items driver_standing qual_info
         qual_position q1_time q2_time q3_time
         pitstops num_pitstops pitstop_details finishing_status row,
    getitem res "Driver" = Ok driver /\
    getitem res "Constructor" = Ok constructor /\
    getitem driver "driverId" = Ok driver_id /\
    py_iter standings = Ok items /\
    first_standing items driver_id = Ok driver_standing /\
    keyed_get qualifying_data driver_id (PDict []) = Ok qual_info /\
    py_get qual_info "position" (PStr "N/A") = Ok qual_position /\
    py_get qual_info "Q1" (PStr "N/A") = Ok q1_time /\
    py_get qual_info "Q2" (PStr "N/A") = Ok q2_time /\
    py_get qual_info "Q3" (PStr "N/A") = Ok q3_time /\
    pitstops_of (srv (pitstops_url py_repr season round_number driver_id))
      = Ok pitstops /\
    py_len pitstops = Ok num_pitstops /\
    pitstop_details_of py_repr pitstops = Ok pitstop_details /\
    getitem res "status" = Ok finishing_status /\
    build_row py_repr season round_number
      race_name circuit_name location race_date
      driver constructor driver_id driver_standing
      qual_position q1_time q2_time q3_time
      num_pitstops pitstop_details finishing_status res = Ok row /\
    st' = mkState
            (requests st
             ++ [pitstops_url py_repr season round_number driver_id])
            (stdout st) (all_race_data st ++ [row]).
Proof.
  unfold result_body. intros H.
  bind_step H as driver Edriver.
  bind_step H as constructor Econstructor.
  bind_step H as driver_id Eid.
  rewrite bind_lift in H.
  destruct (py_iter standings) as [items|] eqn:Eitems;
    [simpl in H|discriminate H].
  destruct (first_standing items driver_id) as [driver_standing|] eqn:Efirst;
    [|discriminate H].
  bind_step H as qual_info Einfo.
  bind_step H as qual_position Eposition.
  bind_step H as q1_time Eq1.
  bind_step H as q2_time Eq2.
  bind_step H as q3_time Eq3.
  unfold fetch_pitstops in H.
  unfold bind at 1 in H. rewrite bind_requests_get in H.
  unfold lift at 1 in H.
  destruct (pitstops_of
              (srv (pitstops_url py_repr season round_number driver_id)))
    as [pitstops|] eqn:Epit; [|discriminate H].
  bind_step H as num_pitstops Enum.
  bind_step H as pitstop_details Edetails.
  rewrite bind_lift in H.
  bind_step H as finishing_status Estatus.
  bind_step H as row Erow.
  unfold append_row in H. inversion H; subst st'. simpl.
  exists driver, constructor, driver_id, items, driver_standing, qual_info,
    qual_position, q1_time, q2_time, q3_time,
    pitstops, num_pitstops, pitstop_details, finishing_status, row.
  repeat split; assumption.
Qed.

(** ** The standing of the driver *)

Lemma getitem_truthy v k x : getitem v k = Ok x -> truthy v = true.
Proof.
  destruct v as [| | | | |d]; try discriminate.
  destruct d; [discriminate | reflexivity].
Qed.

Lemma first_standing_find items driver_id : forall found,
  first_standing items driver_id = Ok found ->
  found = first_match items driver_id.
Proof.
  unfold first_match.
  induction items as [|s rest IH]; simpl; intros found H.
  - inversion H. reflexivity.
  - unfold standing_matches, driver_id_of.
    rbind_step H as driver Edriver. rbind_step H as id Eid.
    simpl. rewrite Eid.
    destruct (py_eq id driver_id).
    + inversion H. reflexivity.
    + apply IH. exact H.
Qed.

(** Over standings that all carry a driver identifier the search does not
    raise. *)
Lemma first_standing_total items driver_id :
  Forall DriverStanding items ->
  first_standing items driver_id = Ok (first_match items driver_id).
Proof.
  unfold first_match.
  induction 1 as [|s rest [[id Hid] _] _ IH]; simpl.
  - reflexivity.
  - unfold standing_matches. rewrite Hid.
    unfold driver_id_of in Hid.
    destruct (getitem s "Driver") as [driver|]; [simpl in Hid|discriminate].
    simpl. rewrite Hid. simpl.
    destruct (py_eq id driver_id); [reflexivity | exact IH].
Qed.

Lemma find_matches_truthy driver_id items s :
  find (standing_matches driver_id) items = Some s -> truthy s = true.
Proof.
  intros H. apply find_some in H. destruct H as [_ H].
  unfold standing_matches, driver_id_of in H.
  destruct (getitem s "Driver") as [driver|] eqn:E; [|discriminate].
  eapply getitem_truthy; eassumption.
Qed.

(** C5: over standings that all carry a driver identifier the search for
    the driver's standing does not raise; and in every row that is emitted,
    "Driver Total Points" is the exact string "N/A" when no standing of the
    round has the driver's identifier, and otherwise the points of the first
    standing, in sequence order, that has it. *)
Theorem driver_total_points_first_match_or_na :
  forall items driver_id,
    (Forall DriverStanding items ->
     first_standing items driver_id = Ok (first_match items driver_id)) /\
    (forall py_repr season round_number
            race_name circuit_name location race_date standings
            qualifying_data res srv st st',
        py_iter standings = Ok items ->
        driver_id_of res = Ok driver_id ->
        result_body py_repr season round_number
          race_name circuit_name location race_date standings
          qualifying_data res srv st = (Ok tt, st') ->
        exists row,
          all_race_data st' = all_race_data st ++ [row] /\
          getitem row "Driver Total Points" =
          match find (standing_matches driver_id) items with
          | Some s => getitem s "points"
          | None => Ok (PStr "N/A")
          end).
Proof.
  intros items driver_id. split; [apply first_standing_total|].
  intros py_repr season round_number race_name circuit_name location
    race_date standings qualifying_data res srv st st' Hitems Hid Hbody.
  apply result_body_inv in Hbody.
  destruct Hbody as
    (driver & constructor & id & items' & driver_standing & qual_info &
     qual_position & q1 & q2 & q3 & pitstops & num & details & status & row &
     Hdriver & _ & Hid' & Hitems' & Hfirst & _ & _ & _ & _ & _ & _ & _ & _ &
     _ & Hrow & ->).
  unfold driver_id_of in Hid. rewrite Hdriver in Hid. simpl in Hid.
  rewrite Hid' in Hid. inversion Hid; subst id.
  rewrite Hitems' in Hitems. inversion Hitems; subst items'.
  exists row. split; [reflexivity|].
  apply build_row_fields in Hrow.
  destruct Hrow as (_ & _ & _ & _ & _ & _ & _ & _ & _ & Htotal & _).
  rewrite Htotal.
  apply first_standing_find in Hfirst. subst driver_standing.
  unfold first_match.
  destruct (find (standing_matches driver_id) items) as [s|] eqn:Efind.
  - rewrite (find_matches_truthy _ _ _ Efind). reflexivity.
  - reflexivity.
Qed.

Lemma driver_total_points_first_match_or_na_witness :
  first_standing Mock.standings (PStr "mazepin")
    = Ok (first_match Mock.standings (PStr "mazepin")) /\
  exists row,
    all_race_data (snd (Mock.join Mock.result_mazepin Mock.srv empty_state))
      = all_race_data empty_state ++ [row] /\
    getitem row "Driver Total Points" = Ok (PStr "N/A").
Proof.
  destruct (driver_total_points_first_match_or_na
              Mock.standings (PStr "mazepin")) as [Htotal Hrow].
  split.
  - apply Htotal. constructor; [|constructor].
    split; [exists (PStr "hamilton") | exists (PStr "25")]; reflexivity.
  - apply (Hrow Mock.repr 2021 1
             (PStr "Bahrain Grand Prix")
             (PStr "Bahrain International Circuit")
             (PStr "Sakhir") (PStr "2021-03-28")
             (PList Mock.standings) Mock.qualifying_data
             Mock.result_mazepin Mock.srv empty_state
             (snd (Mock.join Mock.result_mazepin Mock.srv empty_state)));
      reflexivity.
Defined.

(** ** Pit stops *)

Lemma chars_length s : List.length (chars s) = String.length s.
Proof. induction s; simpl; congruence. Qed.

Lemma py_len_iter v n :
  py_len v = Ok n ->
  exists items, py_iter v = Ok items /\ n = Z.of_nat (List.length items).
Proof.
  destruct v as [| | |s|l|d]; simpl; intros H; try discriminate;
    injection H as <-.
  - exists (chars s). rewrite chars_length. auto.
  - exists l. auto.
  - exists (map (fun kv => PStr (fst kv)) d). rewrite length_map. auto.
Qed.

Lemma truthy_iter v items :
  py_iter v = Ok items ->
  truthy v = match items with [] => false | _ :: _ => true end.
Proof.
  destruct v as [| | |s|l|d]; simpl; intros H; try discriminate;
    injection H as <-.
  - destruct s; reflexivity.
  - destruct l; reflexivity.
  - destruct d; reflexivity.
Qed.

Lemma map_result_Forall2 {A B : Type} (f : A -> outcome B) items :
  forall ys, map_result f items = Ok ys ->
             Forall2 (fun x y => f x = Ok y) items ys.
Proof.
  induction items as [|x rest IH]; simpl; intros ys H.
  - inversion H. constructor.
  - rbind_step H as y Ey. rbind_step H as ys' Eys.
    inversion H. constructor; auto.
Qed.

Lemma pitstop_text_inv py_repr p text :
  pitstop_text py_repr p = Ok text -> stop_text py_repr p text.
Proof.
  unfold pitstop_text, stop_text. intros H.
  rbind_step H as stop Estop. rbind_step H as lap Elap.
  rbind_step H as duration Eduration.
  inversion H. exists stop, lap, duration. auto.
Qed.

(** Count and details of one fetched value *)
Lemma pitstop_fields py_repr pitstops num details :
  py_len pitstops = Ok num ->
  pitstop_details_of py_repr pitstops = Ok details ->
  exists items texts,
    py_iter pitstops = Ok items /\
    Forall2 (stop_text py_repr) items texts /\
    num = Z.of_nat (List.length items) /\
    details = PStr match items with
                   | [] => "No Pitstops"
                   | _ :: _ => String.concat "; " texts
                   end.
Proof.
  intros Hlen Hdetails.
  destruct (py_len_iter _ _ Hlen) as [items [Hiter ->]].
  unfold pitstop_details_of in Hdetails.
  rewrite (truthy_iter _ _ Hiter), Hiter in Hdetails.
  destruct items as [|p rest].
  - exists [], []. inversion Hdetails. repeat split; auto.
  - cbv beta iota delta [rbind] in Hdetails.
    destruct (map_result (pitstop_text py_repr) (p :: rest))
      as [texts|] eqn:Etexts; [|discriminate].
    inversion Hdetails.
    exists (p :: rest), texts. repeat split; auto.
    apply map_result_Forall2 in Etexts.
    eapply Forall2_impl; [|exact Etexts].
    intros a b. apply pitstop_text_inv.
Qed.

(** C6: a turn of the result loop that emits a row makes one request, for
    the pit stops of that driver, and both pit-stop fields of the row come
    from the value that request fetched: "Pit Stop Count" is the number of
    its stops; "Pit Stop Details" is "No Pitstops" when there is none and
    otherwise the texts "Stop n @Lap l (Duration=ds)" of the stops, in
    order, joined by "; ". *)
Theorem pit_stop_fields_from_one_fetch :
  forall py_repr season round_number
         race_name circuit_name location race_date standings
         qualifying_data res srv st st',
    result_body py_repr season round_number
      race_name circuit_name location race_date standings
      qualifying_data res srv st = (Ok tt, st') ->
    exists row driver_id pitstops items texts,
      all_race_data st' = all_race_data st ++ [row] /\
      driver_id_of res = Ok driver_id /\
      requests st' =
        requests st ++ [pitstops_url py_repr season round_number driver_id] /\
      pitstops_of (srv (pitstops_url py_repr season round_number driver_id))
        = Ok pitstops /\
      py_iter pitstops = Ok items /\
      Forall2 (stop_text py_repr) items texts /\
      getitem row "Pit Stop Count"
        = Ok (PInt (Z.of_nat (List.length items))) /\
      getitem row "Pit Stop Details"
        = Ok (PStr match items with
                   | [] => "No Pitstops"
                   | _ :: _ => String.concat "; " texts
                   end).
Proof.
  intros py_repr season round_number race_name circuit_name location
    race_date standings qualifying_data res srv st st' Hbody.
  apply result_body_inv in Hbody.
  destruct Hbody as
    (driver & constructor & id & items' & driver_standing & qual_info &
     qual_position & q1 & q2 & q3 & pitstops & num & details & status & row &
     Hdriver & _ & Hid & _ & _ & _ & _ & _ & _ & _ & Hfetch & Hlen &
     Hdetails & _ & Hrow & ->).
  destruct (pitstop_fields _ _ _ _ Hlen Hdetails)
    as (items & texts & Hiter & Htexts & -> & ->).
  apply build_row_fields in Hrow.
  destruct Hrow as (_ & _ & _ & _ & _ & _ & _ & _ & _ & _ & Hcount & Hdet).
  exists row, id, pitstops, items, texts.
  repeat split; auto.
  unfold driver_id_of. rewrite Hdriver. exact Hid.
Qed.

Lemma pit_stop_fields_from_one_fetch_witness :
  exists row driver_id pitstops items texts,
    all_race_data (snd (Mock.join Mock.result_hamilton Mock.srv empty_state))
      = all_race_data empty_state ++ [row] /\
    driver_id_of Mock.result_hamilton = Ok driver_id /\
    requests (snd (Mock.join Mock.result_hamilton Mock.srv empty_state))
      = requests empty_state ++ [pitstops_url Mock.repr 2021 1 driver_id] /\
    pitstops_of (Mock.srv (pitstops_url Mock.repr 2021 1 driver_id))
      = Ok pitstops /\
    py_iter pitstops = Ok items /\
    Forall2 (stop_text Mock.repr) items texts /\
    getitem row "Pit Stop Count" = Ok (PInt (Z.of_nat (List.length items))) /\
    getitem row "Pit Stop Details"
      = Ok (PStr match items with
                 | [] => "No Pitstops"
                 | _ :: _ => String.concat "; " texts
                 end).
Proof.
  apply (pit_stop_fields_from_one_fetch Mock.repr 2021 1
           (PStr "Bahrain Grand Prix")
           (PStr "Bahrain International Circuit")
           (PStr "Sakhir") (PStr "2021-03-28")
           (PList Mock.standings) Mock.qualifying_data
           Mock.result_hamilton Mock.srv empty_state
           (snd (Mock.join Mock.result_hamilton Mock.srv empty_state))).
  reflexivity.
Defined.

(** The two stops of the mock service give the text and the count of the
    specification's example. *)
Example pit_stop_fields_of_two_stops :
  exists row,
    all_race_data (snd (Mock.join Mock.result_hamilton Mock.srv empty_state))
      = [row] /\
    getitem row "Pit Stop Count" = Ok (PInt 2) /\
    getitem row "Pit Stop Details"
      = Ok (PStr "Stop 1 @Lap 15 (Duration=2.4s); Stop 2 @Lap 40 (Duration=3.1s)").
Proof. eexists. vm_compute. repeat split; reflexivity. Qed.

(** ** Finish time or status *)

(** C7: in every row that is emitted, "Time/Status" is the [time] of the
    result's [Time] when the result has one, and otherwise the finishing
    status of the result as it stands, which is also what "Finishing
    Status" holds. *)
Theorem time_or_status_field :
  forall py_repr season round_number
         race_name circuit_name location race_date standings
         qualifying_data res srv st st',
    result_body py_repr season round_number
      race_name circuit_name location race_date standings
      qualifying_data res srv st = (Ok tt, st') ->
    exists row status,
      all_race_data st' = all_race_data st ++ [row] /\
      getitem res "status" = Ok status /\
      getitem row "Finishing Status" = Ok status /\
      (forall t, getitem res "Time" = Ok t ->
                 getitem row "Time/Status" = getitem t "time") /\
      ((forall t, getitem res "Time" <> Ok t) ->
       getitem row "Time/Status" = Ok status).
Proof.
  intros py_repr season round_number race_name circuit_name location
    race_date standings qualifying_data res srv st st' Hbody.
  apply result_body_inv in Hbody.
  destruct Hbody as
    (driver & constructor & id & items' & driver_standing & qual_info &
     qual_position & q1 & q2 & q3 & pitstops & num & details & status & row &
     Hdriver & _ & _ & _ & _ & _ & _ & _ & _ & _ & _ & _ & _ & Hstatus &
     Hrow & ->).
  apply build_row_fields in Hrow.
  destruct Hrow as (_ & _ & _ & _ & _ & Hfin & Htime & _).
  exists row, status. repeat split; auto.
  - intros t Ht. rewrite Htime.
    destruct res as [| | | | |d]; try discriminate.
    simpl in Ht |- *.
    destruct (dict_get "Time" d) as [t'|]; [|discriminate].
    inversion Ht. reflexivity.
  - intros Hnone. rewrite Htime.
    destruct res as [| | | | |d]; try discriminate.
    simpl in Hnone |- *.
    destruct (dict_get "Time" d) as [t'|]; [|reflexivity].
    exfalso. apply (Hnone t'). reflexivity.
Qed.

Lemma time_or_status_field_witness :
  exists row status,
    all_race_data (snd (Mock.join Mock.result_mazepin Mock.srv empty_state))
      = all_race_data empty_state ++ [row] /\
    getitem Mock.result_mazepin "status" = Ok status /\
    getitem row "Finishing Status" = Ok status /\
    (forall t, getitem Mock.result_mazepin "Time" = Ok t ->
               getitem row "Time/Status" = getitem t "time") /\
    ((forall t, getitem Mock.result_mazepin "Time" <> Ok t) ->
     getitem row "Time/Status" = Ok status).
Proof.
  apply (time_or_status_field Mock.repr 2021 1
           (PStr "Bahrain Grand Prix")
           (PStr "Bahrain International Circuit")
           (PStr "Sakhir") (PStr "2021-03-28")
           (PList Mock.standings) Mock.qualifying_data
           Mock.result_mazepin Mock.srv empty_state
           (snd (Mock.join Mock.result_mazepin Mock.srv empty_state))).
  reflexivity.
Defined.

(** The retired driver of the mock service shows "Retired", the finisher
    his time. *)
Example time_or_status_of_mock_drivers :
  exists row1 row2,
    all_race_data (snd (round_body Mock.repr 2021 1 Mock.srv empty_state))
      = [row1; row2] /\
    getitem row1 "Time/Status" = Ok (PStr "1:32:03.897") /\
    getitem row2 "Time/Status" = Ok (PStr "Retired").
Proof. do 2 eexists. vm_compute. repeat split; reflexivity. Qed.

(** ** A round of well-formed data *)

Lemma keyed_find_in k d v :
  keyed_find k d = Some v -> exists k', In (k', v) d.
Proof.
  induction d as [|[k' v'] rest IH]; simpl; [discriminate|].
  destruct (py_eq k' k).
  - intros H. inversion H; subst. eauto.
  - intros H. destruct (IH H) as [k'' Hin]. eauto.
Qed.

Lemma pitstop_texts_total py_repr stops :
  Forall PitStopEntry stops ->
  exists texts, map_result (pitstop_text py_repr) stops = Ok texts.
Proof.
  induction 1 as [|p rest [[stop Hstop] [[lap Hlap] [duration Hduration]]] _
                   [texts IH]]; simpl.
  - eauto.
  - unfold pitstop_text at 1. rewrite Hstop, Hlap, Hduration. simpl.
    rewrite IH. simpl. eauto.
Qed.

Lemma first_match_cases items driver_id :
  first_match items driver_id = PNone \/
  (In (first_match items driver_id) items /\
   truthy (first_match items driver_id) = true).
Proof.
  unfold first_match.
  destruct (find (standing_matches driver_id) items) as [s|] eqn:E; [|auto].
  right. split.
  - apply find_some in E. tauto.
  - eapply find_matches_truthy; eassumption.
Qed.

Lemma build_row_total py_repr season round_number
    race_name circuit_name location race_date
    driver constructor driver_id items
    qual_position q1_time q2_time q3_time
    num_pitstops pitstop_details finishing_status res :
  getitem res "Driver" = Ok driver ->
  has driver "givenName" -> has driver "familyName" ->
  has driver "nationality" -> has constructor "name" ->
  has res "grid" -> has res "position" ->
  has res "points" -> has res "laps" ->
  (forall t, getitem res "Time" = Ok t -> has t "time") ->
  Forall DriverStanding items ->
  exists row,
    build_row py_repr season round_number
      race_name circuit_name location race_date
      driver constructor driver_id (first_match items driver_id)
      qual_position q1_time q2_time q3_time
      num_pitstops pitstop_details finishing_status res = Ok row.
Proof.
  intros Hdriver [given Hgiven] [family Hfamily] [nationality Hnationality]
    [name Hname] [grid Hgrid] [position Hposition] [points Hpoints]
    [laps Hlaps] Htime Hstandings.
  unfold build_row.
  rewrite Hgiven, Hfamily, Hnationality, Hname, Hgrid, Hposition, Hpoints,
    Hlaps.
  cbv beta iota delta [rbind].
  assert (Htotal : exists p,
    (if truthy (first_match items driver_id)
     then getitem (first_match items driver_id) "points"
     else Ok (PStr "N/A")) = Ok p).
  { destruct (first_match_cases items driver_id) as [->|[Hin ->]].
    - simpl. eauto.
    - rewrite Forall_forall in Hstandings.
      destruct (Hstandings _ Hin) as [_ Hp]. exact Hp. }
  destruct Htotal as [p Hp]. rewrite Hp.
  destruct res as [| | | | |d]; try discriminate.
  unfold py_in.
  destruct (dict_get "Time" d) as [t|] eqn:Et.
  - destruct (Htime t) as [v Hv]; [simpl; rewrite Et; reflexivity|].
    replace (getitem (PDict d) "Time") with (Ok t)
      by (simpl; rewrite Et; reflexivity).
    rewrite Hv. eauto.
  - eauto.
Qed.

(** Over well-formed data a turn of the result loop ends normally, with one
    request and one row. *)
Lemma result_body_total py_repr season round_number
    race_name circuit_name location race_date items qualifying_data
    res srv st :
  ResultEntry res ->
  Forall DriverStanding items ->
  (forall k v, In (k, v) qualifying_data -> exists d, v = PDict d) ->
  (forall id, driver_id_of res = Ok id ->
     exists stops,
       pitstops_of (srv (pitstops_url py_repr season round_number id))
         = Ok (PList stops) /\
       Forall PitStopEntry stops) ->
  exists row id,
    driver_id_of res = Ok id /\
    row_joins res row /\
    result_body py_repr season round_number
      race_name circuit_name location race_date (PList items)
      qualifying_data res srv st =
    (Ok tt,
     mkState (requests st ++ [pitstops_url py_repr season round_number id])
       (stdout st) (all_race_data st ++ [row])).
Proof.
  intros (driver & constructor & id & Hdriver & Hconstructor & Hid & Hhash &
          Hgiven & Hfamily & Hnationality & Hname & Hgrid & Hposition &
          [status Hstatus] & Hpoints & Hlaps & Htime)
    Hstandings Hqual Hstops.
  assert (Hidof : driver_id_of res = Ok id)
    by (unfold driver_id_of; rewrite Hdriver; exact Hid).
  destruct (Hstops id Hidof) as [stops [Hfetch Hentries]].
  destruct (pitstop_texts_total py_repr stops Hentries) as [texts Htexts].
  assert (Hinfo : exists d,
            keyed_get qualifying_data id (PDict []) = Ok (PDict d)).
  { unfold keyed_get. rewrite Hhash.
    destruct (keyed_find id qualifying_data) as [v|] eqn:Efind; [|eauto].
    destruct (keyed_find_in _ _ _ Efind) as [k Hin].
    destruct (Hqual _ _ Hin) as [d ->]. eauto. }
  destruct Hinfo as [info Hinfo].
  assert (Hget : forall k, exists x,
            py_get (PDict info) k (PStr "N/A") = Ok x).
  { intros k. simpl. destruct (dict_get k info); eauto. }
  destruct (Hget "position") as [qual_position Hqp].
  destruct (Hget "Q1") as [q1 Hq1].
  destruct (Hget "Q2") as [q2 Hq2].
  destruct (Hget "Q3") as [q3 Hq3].
  set (details := PStr match stops with
                       | [] => "No Pitstops"
                       | _ :: _ => String.concat "; " texts
                       end).
  assert (Hdetails : pitstop_details_of py_repr (PList stops) = Ok details).
  { unfold pitstop_details_of, details. destruct stops as [|p rest].
    - reflexivity.
    - cbv beta iota delta [truthy py_iter rbind]. rewrite Htexts.
      reflexivity. }
  destruct (build_row_total py_repr season round_number
              race_name circuit_name location race_date
              driver constructor id items qual_position q1 q2 q3
              (Z.of_nat (List.length stops)) details status res
              Hdriver Hgiven Hfamily Hnationality Hname Hgrid Hposition
              Hpoints Hlaps Htime Hstandings) as [row Hrow].
  exists row, id. split; [exact Hidof|]. split.
  - apply build_row_fields in Hrow.
    destruct Hrow as (_ & _ & Hrid & Hrgrid & Hrpos & Hrfin & _ & Hrpoints &
                      Hrlaps & _).
    unfold row_joins. rewrite Hidof, Hstatus. repeat split; assumption.
  - unfold result_body.
    rewrite (bind_lift_ok _ _ _ _ _ Hdriver).
    rewrite (bind_lift_ok _ _ _ _ _ Hconstructor).
    rewrite (bind_lift_ok _ _ _ _ _ Hid).
    rewrite (bind_lift_ok _ (first_match items id))
      by (simpl; apply first_standing_total; exact Hstandings).
    rewrite (bind_lift_ok _ _ _ _ _ Hinfo).
    rewrite (bind_lift_ok _ _ _ _ _ Hqp).
    rewrite (bind_lift_ok _ _ _ _ _ Hq1).
    rewrite (bind_lift_ok _ _ _ _ _ Hq2).
    rewrite (bind_lift_ok _ _ _ _ _ Hq3).
    unfold fetch_pitstops, bind at 1. rewrite bind_requests_get.
    unfold lift at 1. rewrite Hfetch.
    rewrite (bind_lift_ok _ (Z.of_nat (List.length stops)))
      by reflexivity.
    rewrite (bind_lift_ok _ _ _ _ _ Hdetails).
    rewrite (bind_lift_ok _ _ _ _ _ Hdetails).
    rewrite (bind_lift_ok _ _ _ _ _ Hstatus).
    rewrite (bind_lift_ok _ _ _ _ _ Hrow).
    reflexivity.
Qed.

Lemma bind_fetch {A B : Type} url (f : response -> outcome A) (k : A -> M B)
    srv st :
  bind (bind (requests_get url) (fun response => lift (f response))) k srv st
  = match f (srv url) with
    | Ok a =>
        k a srv (mkState (requests st ++ [url]) (stdout st)
                   (all_race_data st))
    | Raise e =>
        (Raise e,
         mkState (requests st ++ [url]) (stdout st) (all_race_data st))
    end.
Proof.
  unfold bind at 1 2. unfold requests_get, lift.
  destruct (f (srv url)); reflexivity.
Qed.

Lemma results_loop_total py_repr season round_number
    race_name circuit_name location race_date items qualifying_data srv :
  Forall DriverStanding items ->
  (forall k v, In (k, v) qualifying_data -> exists d, v = PDict d) ->
  forall results st,
    Forall ResultEntry results ->
    (forall res id, In res results -> driver_id_of res = Ok id ->
       exists stops,
         pitstops_of (srv (pitstops_url py_repr season round_number id))
           = Ok (PList stops) /\
         Forall PitStopEntry stops) ->
    exists rows st',
      for_each results
        (result_body py_repr season round_number
           race_name circuit_name location race_date (PList items)
           qualifying_data) srv st = (Ok tt, st') /\
      all_race_data st' = all_race_data st ++ rows /\
      Forall2 row_joins results rows.
Proof.
  intros Hstandings Hqual.
  induction results as [|res rest IH]; intros st Hentries Hstops.
  - exists [], st. simpl. rewrite app_nil_r. repeat split; constructor.
  - inversion Hentries as [|? ? Hres Hrest]; subst.
    destruct (result_body_total py_repr season round_number
                race_name circuit_name location race_date items
                qualifying_data res srv st Hres Hstandings Hqual)
      as (row & id & _ & Hjoin & Hbody).
    { intros id Hid. apply (Hstops res id); [left; reflexivity | exact Hid]. }
    destruct (IH (mkState
                    (requests st
                     ++ [pitstops_url py_repr season round_number id])
                    (stdout st) (all_race_data st ++ [row])) Hrest)
      as (rows & st' & Hloop & Hrows & Hjoins).
    { intros res' id' Hin. apply Hstops. right. exact Hin. }
    exists (row :: rows), st'.
    rewrite for_each_cons, Hbody. split; [exact Hloop|]. split.
    + rewrite Hrows. simpl. rewrite <- app_assoc. reflexivity.
    + constructor; assumption.
Qed.

(** C2: in a round whose race fetch returns a race record and whose results
    fetch returns N result entries (the standings, the qualifying mapping
    and the pit stops of each driver being fetched as the data model has
    them), the round body ends normally and has appended exactly N rows,
    the i-th row being the row of the i-th result. *)
Theorem one_row_per_result_in_order :
  forall py_repr srv season round_number st st1 race results standings
         qualifying_data,
    fetch_race_data season round_number srv st = (Ok race, st1) ->
    RaceRecord race ->
    race_results_of (srv (results_url season round_number))
      = Ok (PList results) ->
    Forall ResultEntry results ->
    driver_standings_of (srv (standings_url season round_number))
      = Ok (PList standings) ->
    Forall DriverStanding standings ->
    qualifying_results_of (srv (qualifying_url season round_number))
      = Ok qualifying_data ->
    (forall res id, In res results -> driver_id_of res = Ok id ->
       exists stops,
         pitstops_of (srv (pitstops_url py_repr season round_number id))
           = Ok (PList stops) /\
         Forall PitStopEntry stops) ->
    exists rows st',
      round_body py_repr season round_number srv st = (Ok tt, st') /\
      all_race_data st' = all_race_data st ++ rows /\
      List.length rows = List.length results /\
      Forall2 row_joins results rows.
Proof.
  intros py_repr srv season round_number st st1 race results standings
    qualifying_data Hfetch
    ([name Hname] & [date Hdate] & circuit & place & Hcircuit &
     [cname Hcname] & Hplace & [locality Hlocality])
    Hresults Hentries Hstandings Hwf Hqual Hstops.
  destruct (fetch_race_data_state _ _ _ _ _ _ Hfetch) as [_ Hrows1].
  destruct (results_loop_total py_repr season round_number
              name cname locality date standings qualifying_data srv
              Hwf
              (qualifying_values_are_dicts _ _ Hqual)
              results
              (mkState
                 (((requests st1 ++ [results_url season round_number])
                   ++ [standings_url season round_number])
                  ++ [qualifying_url season round_number])
                 (stdout st1) (all_race_data st1))
              Hentries Hstops)
    as (rows & st' & Hloop & Hrows & Hjoins).
  exists rows, st'.
  split; [|split; [|split]].
  - unfold round_body, bind at 1. rewrite Hfetch.
    rewrite (getitem_truthy _ _ _ Hname). cbv beta iota delta [negb].
    rewrite (bind_lift_ok _ _ _ _ _ Hname).
    rewrite (bind_lift_ok _ cname) by (rewrite Hcircuit; exact Hcname).
    rewrite (bind_lift_ok _ locality)
      by (rewrite Hcircuit; simpl; rewrite Hplace; exact Hlocality).
    rewrite (bind_lift_ok _ _ _ _ _ Hdate).
    unfold fetch_race_results. rewrite bind_fetch, Hresults.
    unfold fetch_driver_standings. rewrite bind_fetch, Hstandings.
    unfold fetch_qualifying_results. rewrite bind_fetch, Hqual.
    cbv beta iota delta [requests stdout all_race_data].
    rewrite (bind_lift_ok _ results) by reflexivity.
    exact Hloop.
  - rewrite Hrows. simpl. rewrite Hrows1. reflexivity.
  - symmetry. eapply Forall2_length. exact Hjoins.
  - exact Hjoins.
Qed.

Lemma one_row_per_result_in_order_witness :
  exists rows st',
    round_body Mock.repr 2021 1 Mock.srv empty_state = (Ok tt, st') /\
    all_race_data st' = all_race_data empty_state ++ rows /\
    List.length rows = List.length Mock.results /\
    Forall2 row_joins Mock.results rows.
Proof.
  apply (one_row_per_result_in_order Mock.repr Mock.srv 2021 1 empty_state
           (mkState [race_url 2021 1] [] []) Mock.race Mock.results
           Mock.standings Mock.qualifying_data).
  - reflexivity.
  - unfold RaceRecord, has.
    split; [eexists; reflexivity|]. split; [eexists; reflexivity|].
    do 2 eexists.
    split; [reflexivity|]. split; [eexists; reflexivity|].
    split; [reflexivity | eexists; reflexivity].
  - reflexivity.
  - constructor; [|constructor; [|constructor]].
    + unfold ResultEntry, has. do 3 eexists.
      do 3 (split; [reflexivity|]). split; [reflexivity|].
      do 9 (split; [eexists; reflexivity|]).
      intros t Ht. inversion Ht. eexists; reflexivity.
    + unfold ResultEntry, has. do 3 eexists.
      do 3 (split; [reflexivity|]). split; [reflexivity|].
      do 9 (split; [eexists; reflexivity|]).
      intros t Ht. inversion Ht.
  - reflexivity.
  - constructor; [|constructor].
    split; [exists (PStr "hamilton") | exists (PStr "25")]; reflexivity.
  - reflexivity.
  - intros res id [<-|[<-|[]]] Hid; inversion Hid; subst id.
    + exists Mock.stops. split; [reflexivity|].
      unfold Mock.stops, PitStopEntry, has.
      constructor; [|constructor; [|constructor]];
        (split; [|split]); eexists; reflexivity.
    + exists []. split; [reflexivity | constructor].
Defined.

(** ** The run depends on the fetched responses only *)

Section ReadsOnlyFetched.

Context {A B : Type}.

Lemma rof_ret (a : A) : reads_only_fetched (ret a).
Proof.
  intros srv st. exists []. split; [simpl; rewrite app_nil_r|]; reflexivity.
Qed.

Lemma rof_lift (r : outcome A) : reads_only_fetched (lift r).
Proof.
  intros srv st. exists []. split; [simpl; rewrite app_nil_r|]; reflexivity.
Qed.

Lemma rof_bind (m : M A) (k : A -> M B) :
  reads_only_fetched m ->
  (forall a, reads_only_fetched (k a)) ->
  reads_only_fetched (bind m k).
Proof.
  intros Hm Hk srv st.
  destruct (Hm srv st) as [urls1 [Hlog1 Hsame1]].
  unfold bind.
  destruct (m srv st) as [[a|e] st1] eqn:Em; simpl in Hlog1.
  - destruct (Hk a srv st1) as [urls2 [Hlog2 Hsame2]].
    exists (urls1 ++ urls2). split.
    + rewrite Hlog2, Hlog1, app_assoc. reflexivity.
    + intros srv' Hagree.
      rewrite Hsame1 by (intros url Hin; apply Hagree, in_or_app; auto).
      apply Hsame2. intros url Hin. apply Hagree, in_or_app. auto.
  - exists urls1. split; [exact Hlog1|].
    intros srv' Hagree. rewrite (Hsame1 srv' Hagree). reflexivity.
Qed.

End ReadsOnlyFetched.

Lemma rof_requests_get url : reads_only_fetched (requests_get url).
Proof.
  intros srv st. exists [url]. split; [reflexivity|].
  intros srv' Hagree. unfold requests_get.
  rewrite (Hagree url) by (left; reflexivity). reflexivity.
Qed.

Lemma rof_print line : reads_only_fetched (print line).
Proof.
  intros srv st. exists []. split; [simpl; rewrite app_nil_r|]; reflexivity.
Qed.

Lemma rof_append_row row : reads_only_fetched (append_row row).
Proof.
  intros srv st. exists []. split; [simpl; rewrite app_nil_r|]; reflexivity.
Qed.

Lemma rof_clear_rows : reads_only_fetched clear_rows.
Proof.
  intros srv st. exists []. split; [simpl; rewrite app_nil_r|]; reflexivity.
Qed.

Lemma rof_for_each {A : Type} (items : list A) (body : A -> M unit) :
  (forall x, reads_only_fetched (body x)) ->
  reads_only_fetched (for_each items body).
Proof.
  intros Hbody. induction items as [|x rest IH]; simpl.
  - apply rof_ret.
  - apply rof_bind; [apply Hbody | intros _; exact IH].
Qed.

Ltac rof :=
  repeat first
    [ apply rof_ret | apply rof_lift | apply rof_requests_get
    | apply rof_print | apply rof_append_row | apply rof_clear_rows
    | apply rof_bind; [|intro]
    | match goal with
      | |- reads_only_fetched (if ?b then _ else _) => destruct b
      end ].

Lemma rof_fetch_race_data season round_number :
  reads_only_fetched (fetch_race_data season round_number).
Proof. unfold fetch_race_data. rof. Qed.

Lemma rof_fetch_driver_standings season round_number :
  reads_only_fetched (fetch_driver_standings season round_number).
Proof. unfold fetch_driver_standings. rof. Qed.

Lemma rof_fetch_race_results season round_number :
  reads_only_fetched (fetch_race_results season round_number).
Proof. unfold fetch_race_results. rof. Qed.

Lemma rof_fetch_qualifying_results season round_number :
  reads_only_fetched (fetch_qualifying_results season round_number).
Proof. unfold fetch_qualifying_results. rof. Qed.

Lemma rof_fetch_pitstops py_repr season round_number driver_id :
  reads_only_fetched (fetch_pitstops py_repr season round_number driver_id).
Proof. unfold fetch_pitstops. rof. Qed.

Lemma rof_result_body py_repr season round_number
    race_name circuit_name location race_date standings qualifying_data res :
  reads_only_fetched
    (result_body py_repr season round_number
       race_name circuit_name location race_date standings qualifying_data
       res).
Proof.
  unfold result_body.
  repeat first [ apply rof_fetch_pitstops | apply rof_lift
               | apply rof_append_row | apply rof_bind; [|intro] ].
Qed.

Lemma rof_round_body py_repr season round_number :
  reads_only_fetched (round_body py_repr season round_number).
Proof.
  unfold round_body.
  apply rof_bind; [apply rof_fetch_race_data | intros race].
  destruct (negb (truthy race)); [apply rof_ret|].
  repeat first
    [ apply rof_fetch_race_results | apply rof_fetch_driver_standings
    | apply rof_fetch_qualifying_results | apply rof_lift
    | apply rof_for_each; intro; apply rof_result_body
    | apply rof_bind; [|intro] ].
Qed.

Lemma rof_main py_repr : reads_only_fetched (main py_repr).
Proof.
  unfold main.
  apply rof_bind; [apply rof_clear_rows | intros _].
  apply rof_bind; [|intros _; apply rof_print].
  apply rof_for_each. intros season. unfold season_body.
  apply rof_bind; [|intros _; apply rof_print].
  apply rof_for_each. intros round_number. apply rof_round_body.
Qed.

(** C9: the run is a function of the responses it fetches.  Against any
    service that gives the same response at every URL the run requests, the
    script ends the same way with the same rows, the same requests and the
    same printed lines; in particular two runs against one service agree. *)
Theorem run_depends_only_on_fetched_responses :
  forall py_repr (srv srv' : http),
    (forall url,
        In url (requests (snd (run py_repr srv))) -> srv' url = srv url) ->
    run py_repr srv' = run py_repr srv.
Proof.
  intros py_repr srv srv' Hagree. unfold run in *.
  destruct (rof_main py_repr srv empty_state) as [urls [Hlog Hsame]].
  simpl in Hlog. apply Hsame. intros url Hin.
  apply Hagree. rewrite Hlog. exact Hin.
Qed.

Lemma run_depends_only_on_fetched_responses_witness :
  run Mock.repr MockOther.srv = run Mock.repr Mock.srv.
Proof.
  apply (run_depends_only_on_fetched_responses Mock.repr Mock.srv
           MockOther.srv).
  intros url Hin. unfold MockOther.srv.
  assert (Hall : forallb
                   (fun u =>
                      negb (String.eqb u
                              "http://ergast.com/api/f1/1950/1.json"))
                   (requests (snd (run Mock.repr Mock.srv))) = true)
    by (vm_compute; reflexivity).
  rewrite forallb_forall in Hall. specialize (Hall url Hin).
  destruct (String.eqb url "http://ergast.com/api/f1/1950/1.json");
    [discriminate Hall | reflexivity].
Defined.

(** ** What a run adds to the state *)

Lemma state_eta st :
  st = mkState (requests st ++ []) (stdout st ++ []) (all_race_data st ++ []).
Proof. destruct st. simpl. rewrite !app_nil_r. reflexivity. Qed.

Section Appends.

Variable Pu : string -> Prop.
Variable Pr : pyval -> Prop.

Lemma appends_ret {A : Type} (a : A) : appends Pu Pr (ret a).
Proof.
  intros srv st. exists [], [], []. split; [apply state_eta | auto].
Qed.

Lemma appends_lift {A : Type} (r : outcome A) : appends Pu Pr (lift r).
Proof.
  intros srv st. exists [], [], []. split; [apply state_eta | auto].
Qed.

Lemma appends_print line : appends Pu Pr (print line).
Proof.
  intros srv st. exists [], [line], []. simpl. rewrite !app_nil_r. auto.
Qed.

Lemma appends_requests_get url : Pu url -> appends Pu Pr (requests_get url).
Proof.
  intros Hurl srv st. exists [url], [], []. simpl. rewrite !app_nil_r. auto.
Qed.

Lemma appends_append_row row : Pr row -> appends Pu Pr (append_row row).
Proof.
  intros Hrow srv st. exists [], [], [row]. simpl. rewrite !app_nil_r. auto.
Qed.

Lemma appends_bind {A B : Type} (m : M A) (k : A -> M B) :
  appends Pu Pr m ->
  (forall a, appends Pu Pr (k a)) ->
  appends Pu Pr (bind m k).
Proof.
  intros Hm Hk srv st.
  destruct (Hm srv st) as (urls1 & lines1 & rows1 & Hst1 & Hu1 & Hr1).
  unfold bind. destruct (m srv st) as [[a|e] st1]; simpl in Hst1.
  - destruct (Hk a srv st1) as (urls2 & lines2 & rows2 & Hst2 & Hu2 & Hr2).
    exists (urls1 ++ urls2), (lines1 ++ lines2), (rows1 ++ rows2).
    rewrite Hst2, Hst1. simpl. rewrite !app_assoc.
    split; [reflexivity|]. split; apply Forall_app; auto.
  - exists urls1, lines1, rows1. auto.
Qed.

(** After a pure step the rest runs only on the value the step gave. *)
Lemma appends_bind_lift {A B : Type} (r : outcome A) (k : A -> M B) :
  (forall a, r = Ok a -> appends Pu Pr (k a)) ->
  appends Pu Pr (bind (lift r) k).
Proof.
  intros Hk srv st. rewrite bind_lift. destruct r as [a|e].
  - apply (Hk a eq_refl).
  - exists [], [], []. split; [apply state_eta | auto].
Qed.

Lemma appends_for_each {A : Type} (items : list A) (body : A -> M unit) :
  (forall x, In x items -> appends Pu Pr (body x)) ->
  appends Pu Pr (for_each items body).
Proof.
  induction items as [|x rest IH]; intros Hbody; simpl.
  - apply appends_ret.
  - apply appends_bind.
    + apply Hbody. left. reflexivity.
    + intros _. apply IH. intros y Hy. apply Hbody. right. exact Hy.
Qed.

End Appends.

Lemma appends_weaken {A : Type} (Pu Pu' : string -> Prop)
    (Pr Pr' : pyval -> Prop) (m : M A) :
  (forall url, Pu url -> Pu' url) ->
  (forall row, Pr row -> Pr' row) ->
  appends Pu Pr m -> appends Pu' Pr' m.
Proof.
  intros Hu Hr Hm srv st.
  destruct (Hm srv st) as (urls & lines & rows & Hst & Hurls & Hrows).
  exists urls, lines, rows. split; [exact Hst|].
  split; eapply Forall_impl; eauto.
Qed.

Lemma build_row_of_round py_repr season round_number
    race_name circuit_name location race_date
    driver constructor driver_id driver_standing
    qual_position q1_time q2_time q3_time
    num_pitstops pitstop_details finishing_status res row :
  build_row py_repr season round_number
    race_name circuit_name location race_date
    driver constructor driver_id driver_standing
    qual_position q1_time q2_time q3_time
    num_pitstops pitstop_details finishing_status res = Ok row ->
  row_of_round season round_number row.
Proof.
  unfold build_row, row_of_round. intros H.
  rbind_step H as given_name Egiven.
  rbind_step H as family_name Efamily.
  rbind_step H as nationality Enationality.
  rbind_step H as constructor_name Ename.
  rbind_step H as grid Egrid.
  rbind_step H as position Eposition.
  rbind_step H as timed Etimed.
  rbind_step H as time_or_status Etime.
  rbind_step H as points Epoints.
  rbind_step H as laps Elaps.
  rbind_step H as total_points Etotal.
  inversion H; subst row. eexists. repeat split.
Qed.

Lemma appends_round_body py_repr season round_number :
  appends (url_of_round py_repr season round_number)
          (row_of_round season round_number)
          (round_body py_repr season round_number).
Proof.
  assert (Hfetch : forall {A : Type} url (f : response -> outcome A),
             url_of_round py_repr season round_number url ->
             appends (url_of_round py_repr season round_number)
                     (row_of_round season round_number)
                     (bind (requests_get url)
                           (fun response => lift (f response)))).
  { intros A url f Hurl. apply appends_bind.
    - apply appends_requests_get. exact Hurl.
    - intros response. apply appends_lift. }
  unfold round_body. apply appends_bind.
  - unfold fetch_race_data. apply appends_bind.
    + apply appends_requests_get. left. reflexivity.
    + intros response.
      destruct (status_code response =? 200).
      * apply appends_bind; [apply appends_lift | intros races].
        destruct (truthy races); [apply appends_lift|].
        apply appends_bind; [apply appends_print | intros _].
        apply appends_ret.
      * apply appends_bind; [apply appends_print | intros _].
        apply appends_ret.
  - intros race. destruct (negb (truthy race)); [apply appends_ret|].
    do 4 (apply appends_bind; [apply appends_lift | intro]).
    apply appends_bind;
      [apply Hfetch; right; left; reflexivity | intros race_results].
    apply appends_bind;
      [apply Hfetch; right; right; left; reflexivity | intros standings].
    apply appends_bind;
      [apply Hfetch; right; right; right; left; reflexivity
      | intros qualifying_data].
    apply appends_bind; [apply appends_lift | intros results].
    apply appends_for_each. intros res _. unfold result_body.
    do 9 (apply appends_bind; [apply appends_lift | intro]).
    apply appends_bind.
    { apply Hfetch. right. right. right. right. eexists. reflexivity. }
    intros pitstops.
    do 4 (apply appends_bind; [apply appends_lift | intro]).
    apply appends_bind_lift. intros row Hrow.
    apply appends_append_row.
    eapply build_row_of_round. exact Hrow.
Qed.

Lemma in_range lo hi x : In x (range lo hi) -> lo <= x < hi.
Proof.
  unfold range. rewrite in_map_iff. intros [i [<- Hi]].
  apply in_seq in Hi. lia.
Qed.

Lemma appends_main_loop py_repr :
  appends
    (fun url => exists season round_number,
         2010 <= season <= 2024 /\ 1 <= round_number <= 29 /\
         url_of_round py_repr season round_number url)
    (fun row => exists season round_number,
         2010 <= season <= 2024 /\ 1 <= round_number <= 29 /\
         row_of_round season round_number row)
    (for_each (range start_season (end_season + 1)) (season_body py_repr)
     ;;; print "Enhanced race data saved to 'f1_enhanced_race_data_final.csv'.").
Proof.
  apply appends_bind; [|intros _; apply appends_print].
  apply appends_for_each. intros season Hseason.
  apply in_range in Hseason. unfold start_season, end_season in Hseason.
  unfold season_body.
  apply appends_bind; [|intros _; apply appends_print].
  apply appends_for_each. intros round_number Hround.
  apply in_range in Hround.
  eapply appends_weaken; [| |apply appends_round_body].
  - intros url Hurl. exists season, round_number.
    repeat split; try lia. exact Hurl.
  - intros row Hrow. exists season, round_number.
    repeat split; try lia. exact Hrow.
Qed.

(** X1: whatever the service answers, every row a run leaves in
    [all_race_data] is a dict with exactly the 23 keys of [columns], in
    that order, whose "Season" is an integer from 2010 to 2024 and whose
    "Round" is an integer from 1 to 29. *)
Theorem run_rows_have_the_columns :
  forall py_repr srv,
    Forall
      (fun row => exists season round_number,
           2010 <= season <= 2024 /\ 1 <= round_number <= 29 /\
           row_of_round season round_number row)
      (all_race_data (snd (run py_repr srv))).
Proof.
  intros py_repr srv. unfold run, main, bind at 1.
  cbv beta iota delta [clear_rows empty_state requests stdout].
  destruct (appends_main_loop py_repr srv (mkState [] [] []))
    as (urls & lines & rows & Hst & _ & Hrows).
  rewrite Hst. exact Hrows.
Qed.

(** X2: whatever the service answers, every URL a run requests is one of
    the five URLs of a round (race, results, standings, qualifying, pit
    stops of some driver) for a season from 2010 to 2024 and a round from
    1 to 29. *)
Theorem run_requests_are_round_urls :
  forall py_repr srv,
    Forall
      (fun url => exists season round_number,
           2010 <= season <= 2024 /\ 1 <= round_number <= 29 /\
           url_of_round py_repr season round_number url)
      (requests (snd (run py_repr srv))).
Proof.
  intros py_repr srv. unfold run, main, bind at 1.
  cbv beta iota delta [clear_rows empty_state requests stdout].
  destruct (appends_main_loop py_repr srv (mkState [] [] []))
    as (urls & lines & rows & Hst & Hurls & _).
  rewrite Hst. exact Hurls.
Qed.

(** ** The order of the rows *)

Lemma season_round_of_round season round_number row :
  row_of_round season round_number row ->
  season_round row = Some (season, round_number).
Proof.
  intros (d & -> & _ & Hseason & Hround).
  unfold season_round, getitem. rewrite Hseason, Hround. reflexivity.
Qed.

Lemma StronglySorted_app {A : Type} (R : A -> A -> Prop) l1 l2 :
  StronglySorted R l1 -> StronglySorted R l2 ->
  (forall a b, In a l1 -> In b l2 -> R a b) ->
  StronglySorted R (l1 ++ l2).
Proof.
  induction 1 as [|x l1 Hsorted IH Hall]; intros H2 Hcross; simpl.
  - exact H2.
  - constructor.
    + apply IH; [exact H2|]. intros a b Ha Hb. apply Hcross; [right|]; auto.
    + apply Forall_app. split; [exact Hall|].
      apply Forall_forall. intros b Hb. apply Hcross; [left|]; auto.
Qed.

(** Chunks that follow sorted items, each sorted and each tied to its
    item, concatenate to a sorted list. *)
Lemma chunks_sorted {X K : Type} (lt : X -> X -> Prop) (R : K -> K -> Prop)
    (Q : X -> K -> Prop) :
  (forall x y a b, lt x y -> Q x a -> Q y b -> R a b) ->
  forall items chunks,
    StronglySorted lt items ->
    Forall2 (fun x ks => StronglySorted R ks /\ Forall (Q x) ks)
            items chunks ->
    StronglySorted R (List.concat chunks) /\
    forall b, In b (List.concat chunks) -> exists y, In y items /\ Q y b.
Proof.
  intros Hcross items chunks Hitems Hchunks.
  induction Hchunks as [|x ks items chunks [Hks HQ] _ IH]; simpl.
  - split; [constructor | intros b []].
  - inversion Hitems as [|? ? Hrest Hlt]; subst.
    destruct (IH Hrest) as [Hsorted Hfrom].
    rewrite Forall_forall in HQ, Hlt. split.
    + apply StronglySorted_app; auto.
      intros a b Ha Hb. destruct (Hfrom b Hb) as [y [Hy HQy]].
      eapply Hcross; eauto.
    + intros b Hb. apply in_app_or in Hb. destruct Hb as [Hb|Hb].
      * exists x. split; [left; reflexivity | auto].
      * destruct (Hfrom b Hb) as [y [Hy HQy]]. exists y. split; [right|]; auto.
Qed.

(** The rows a loop appends, one chunk per item, the chunks of the items
    that an exception left out being empty. *)
Lemma for_each_chunks {A : Type} (P : A -> list pyval -> Prop)
    (body : A -> M unit) :
  (forall x, P x []) ->
  (forall x srv st,
      exists rows,
        all_race_data (snd (body x srv st)) = all_race_data st ++ rows /\
        P x rows) ->
  forall items srv st,
    exists chunks,
      all_race_data (snd (for_each items body srv st))
        = all_race_data st ++ List.concat chunks /\
      Forall2 P items chunks.
Proof.
  intros Hnil Hbody items srv.
  induction items as [|x rest IH]; intros st.
  - exists []. simpl. rewrite app_nil_r. auto.
  - rewrite for_each_cons.
    destruct (Hbody x srv st) as [rows [Hrows HP]].
    destruct (body x srv st) as [[u|e] st1]; simpl in Hrows.
    + destruct (IH st1) as [chunks [Hchunks Hall]].
      exists (rows :: chunks). simpl.
      rewrite Hchunks, Hrows, app_assoc. auto.
    + exists (rows :: map (fun _ => []) rest). simpl. split.
      * rewrite Hrows. f_equal.
        clear. induction rest; simpl; [rewrite app_nil_r|]; auto.
      * constructor; [exact HP|].
        clear - Hnil. induction rest; simpl; constructor; auto.
Qed.

(** Chunks of rows with keys give chunks of keys. *)
Lemma keyed_chunks {X : Type} (S : X -> list (Z * Z) -> Prop)
    (items : list X)
    chunks :
  Forall2 (fun x rows =>
             exists keys, map season_round rows = map Some keys /\ S x keys)
          items chunks ->
  exists kchunks,
    map season_round (List.concat chunks) = map Some (List.concat kchunks) /\
    Forall2 S items kchunks.
Proof.
  induction 1 as [|x rows items chunks [keys [Hkeys HS]] _ [kchunks [Hk Hall]]].
  - exists []. auto.
  - exists (keys :: kchunks). simpl.
    rewrite !map_app, Hkeys, Hk. auto.
Qed.

Lemma range_sorted lo hi : StronglySorted Z.lt (range lo hi).
Proof.
  unfold range. generalize (Z.to_nat (hi - lo)) as n. generalize 0%nat as a.
  intros a n. revert a. induction n as [|n IH]; intros a; simpl.
  - constructor.
  - constructor; [apply IH|].
    apply Forall_forall. intros x Hx. apply in_map_iff in Hx.
    destruct Hx as [i [<- Hi]]. apply in_seq in Hi. lia.
Qed.

Lemma same_key_sorted (key : Z * Z) keys :
  Forall (fun k => k = key) keys -> StronglySorted season_round_le keys.
Proof.
  induction 1 as [|k keys -> Hall IH]; constructor; [exact IH|].
  eapply Forall_impl; [|exact Hall].
  intros k ->. right. split; [reflexivity | lia].
Qed.

Lemma bind_print_rows {A : Type} (m : M A) line srv st :
  all_race_data (snd (bind m (fun _ => print line) srv st))
  = all_race_data (snd (m srv st)).
Proof. unfold bind. destruct (m srv st) as [[a|e] st1]; reflexivity. Qed.

Lemma round_body_rows py_repr season round_number srv st :
  exists rows,
    all_race_data (snd (round_body py_repr season round_number srv st))
      = all_race_data st ++ rows /\
    exists keys,
      map season_round rows = map Some keys /\
      StronglySorted season_round_le keys /\
      Forall (fun k => k = (season, round_number)) keys.
Proof.
  destruct (appends_round_body py_repr season round_number srv st)
    as (urls & lines & rows & Hst & _ & Hrows).
  exists rows. rewrite Hst. split; [reflexivity|].
  exists (map (fun _ => (season, round_number)) rows).
  assert (Hsame : Forall (fun k => k = (season, round_number))
                    (map (fun _ : pyval => (season, round_number)) rows))
    by (apply Forall_forall; intros k Hk; apply in_map_iff in Hk;
        destruct Hk as [? [<- _]]; reflexivity).
  split; [|split; [apply (same_key_sorted _ _ Hsame) | exact Hsame]].
  rewrite map_map. apply map_ext_in. intros row Hrow.
  rewrite Forall_forall in Hrows.
  apply season_round_of_round, Hrows, Hrow.
Qed.

Lemma season_body_rows py_repr season srv st :
  exists rows,
    all_race_data (snd (season_body py_repr season srv st))
      = all_race_data st ++ rows /\
    exists keys,
      map season_round rows = map Some keys /\
      StronglySorted season_round_le keys /\
      Forall (fun k => fst k = season) keys.
Proof.
  unfold season_body. rewrite bind_print_rows.
  destruct (for_each_chunks
              (fun round_number rows =>
                 exists keys,
                   map season_round rows = map Some keys /\
                   StronglySorted season_round_le keys /\
                   Forall (fun k => k = (season, round_number)) keys)
              (round_body py_repr season))
    with (items := round_numbers) (srv := srv) (st := st)
    as [chunks [Hrows Hchunks]].
  { intros x. exists []. repeat split; constructor. }
  { intros x srv' st'. apply round_body_rows. }
  exists (List.concat chunks). split; [exact Hrows|].
  apply keyed_chunks in Hchunks. destruct Hchunks as [kchunks [Hkeys Hall]].
  exists (List.concat kchunks). split; [exact Hkeys|].
  destruct (chunks_sorted Z.lt season_round_le
              (fun round_number k => k = (season, round_number)))
    with (items := round_numbers) (chunks := kchunks) as [Hsorted Hfrom].
  { intros x y a b Hlt -> ->. right. simpl. split; [reflexivity | lia]. }
  { apply range_sorted. }
  { exact Hall. }
  split; [exact Hsorted|].
  apply Forall_forall. intros b Hb.
  destruct (Hfrom b Hb) as [y [_ ->]]. reflexivity.
Qed.

(** X3: whatever the service answers, the rows of a run stand in ascending
    order of season and, within a season, of round: each row carries an
    integer season and round, and of any two rows the earlier one has the
    smaller season, or the same season and a round that is not larger. *)
Theorem run_rows_ascend_by_season_then_round :
  forall py_repr srv,
    exists keys,
      map season_round (all_race_data (snd (run py_repr srv)))
        = map Some keys /\
      StronglySorted season_round_le keys.
Proof.
  intros py_repr srv. unfold run, main, bind at 1.
  cbv beta iota delta [clear_rows empty_state requests stdout].
  rewrite bind_print_rows.
  destruct (for_each_chunks
              (fun season rows =>
                 exists keys,
                   map season_round rows = map Some keys /\
                   StronglySorted season_round_le keys /\
                   Forall (fun k => fst k = season) keys)
              (season_body py_repr))
    with (items := range start_season (end_season + 1)) (srv := srv)
         (st := mkState [] [] [])
    as [chunks [Hrows Hchunks]].
  { intros x. exists []. repeat split; constructor. }
  { intros x srv' st'. apply season_body_rows. }
  apply keyed_chunks in Hchunks. destruct Hchunks as [kchunks [Hkeys Hall]].
  exists (List.concat kchunks). rewrite Hrows. split; [exact Hkeys|].
  apply (chunks_sorted Z.lt season_round_le (fun season k => fst k = season))
    with (items := range start_season (end_season + 1)).
  - intros x y a b Hlt <- <-. left. exact Hlt.
  - apply range_sorted.
  - exact Hall.
Qed.

(** ** The requests of a round *)

Lemma results_loop_inv py_repr season round_number
    race_name circuit_name location race_date standings qualifying_data srv :
  forall results st st',
    for_each results
      (result_body py_repr season round_number
         race_name circuit_name location race_date standings
         qualifying_data) srv st = (Ok tt, st') ->
    exists ids rows,
      Forall2 (fun res id => driver_id_of res = Ok id) results ids /\
      Forall2 row_joins results rows /\
      st' = mkState
              (requests st
               ++ map (pitstops_url py_repr season round_number) ids)
              (stdout st) (all_race_data st ++ rows).
Proof.
  induction results as [|res rest IH]; intros st st' Hloop.
  - simpl in Hloop. inversion Hloop; subst st'.
    exists [], []. simpl. rewrite !app_nil_r. destruct st. auto.
  - rewrite for_each_cons in Hloop.
    destruct (result_body py_repr season round_number race_name circuit_name
                location race_date standings qualifying_data res srv st)
      as [[[]|e] st1] eqn:Hbody; [|discriminate].
    apply result_body_inv in Hbody.
    destruct Hbody as
      (driver & constructor & id & items & driver_standing & qual_info &
       qual_position & q1 & q2 & q3 & pitstops & num & details & status &
       row & Hdriver & _ & Hid & _ & _ & _ & _ & _ & _ & _ & _ & _ & _ &
       Hstatus & Hrow & ->).
    destruct (IH _ _ Hloop) as (ids & rows & Hids & Hjoins & ->).
    exists (id :: ids), (row :: rows). simpl.
    assert (Hidof : driver_id_of res = Ok id)
      by (unfold driver_id_of; rewrite Hdriver; exact Hid).
    split; [constructor; assumption|]. split.
    + constructor; [|exact Hjoins].
      apply build_row_fields in Hrow.
      destruct Hrow as (_ & _ & Hrid & Hrgrid & Hrpos & Hrfin & _ &
                        Hrpoints & Hrlaps & _).
      unfold row_joins. rewrite Hidof, Hstatus. repeat split; assumption.
    + rewrite <- !app_assoc. reflexivity.
Qed.

(** X4: a round body that ends normally has either skipped the round after
    the race request alone, or has requested, in this order, the race, the
    results, the standings and the qualifying of the round and then the pit
    stops of the driver of each result, one request per result in the order
    of the results, and has appended one row per result in that order. *)
Theorem round_requests_in_order :
  forall py_repr season round_number srv st st',
    round_body py_repr season round_number srv st = (Ok tt, st') ->
    (requests st' = requests st ++ [race_url season round_number] /\
     all_race_data st' = all_race_data st) \/
    exists race_results results ids rows,
      race_results_of (srv (results_url season round_number))
        = Ok race_results /\
      py_iter race_results = Ok results /\
      Forall2 (fun res id => driver_id_of res = Ok id) results ids /\
      Forall2 row_joins results rows /\
      requests st' =
        requests st
        ++ [race_url season round_number; results_url season round_number;
            standings_url season round_number;
            qualifying_url season round_number]
        ++ map (pitstops_url py_repr season round_number) ids /\
      all_race_data st' = all_race_data st ++ rows.
Proof.
  intros py_repr season round_number srv st st' Hbody.
  unfold round_body, bind at 1 in Hbody.
  destruct (fetch_race_data season round_number srv st)
    as [[race|e] st1] eqn:Hfetch; [|discriminate].
  destruct (fetch_race_data_state _ _ _ _ _ _ Hfetch) as [Hreq Hrows].
  destruct (negb (truthy race)).
  - inversion Hbody; subst st'. left. auto.
  - right.
    bind_step Hbody as race_name Ename.
    rewrite bind_lift in Hbody.
    destruct (getitem race "Circuit") as [circuit|]; [|discriminate].
    cbv beta iota delta [rbind] in Hbody.
    destruct (getitem circuit "circuitName") as [circuit_name|];
      [|discriminate].
    rewrite bind_lift in Hbody.
    destruct (getitem circuit "Location") as [place|]; [|discriminate].
    destruct (getitem place "locality") as [location|]; [|discriminate].
    bind_step Hbody as race_date Edate.
    unfold fetch_race_results in Hbody. rewrite bind_fetch in Hbody.
    destruct (race_results_of (srv (results_url season round_number)))
      as [race_results|] eqn:Eresults; [|discriminate].
    unfold fetch_driver_standings in Hbody. rewrite bind_fetch in Hbody.
    destruct (driver_standings_of (srv (standings_url season round_number)))
      as [standings|]; [|discriminate].
    unfold fetch_qualifying_results in Hbody. rewrite bind_fetch in Hbody.
    destruct (qualifying_results_of (srv (qualifying_url season round_number)))
      as [qualifying_data|]; [|discriminate].
    bind_step Hbody as results Eiter.
    apply results_loop_inv in Hbody.
    destruct Hbody as (ids & rows & Hids & Hjoins & ->).
    exists race_results, results, ids, rows. simpl.
    rewrite Hreq, Hrows, <- !app_assoc. simpl. auto 10.
Qed.

Lemma round_requests_in_order_witness :
  exists race_results results ids rows,
    race_results_of (Mock.srv (results_url 2021 1)) = Ok race_results /\
    py_iter race_results = Ok results /\
    Forall2 (fun res id => driver_id_of res = Ok id) results ids /\
    Forall2 row_joins results rows /\
    requests (snd (round_body Mock.repr 2021 1 Mock.srv empty_state)) =
      requests empty_state
      ++ [race_url 2021 1; results_url 2021 1; standings_url 2021 1;
          qualifying_url 2021 1]
      ++ map (pitstops_url Mock.repr 2021 1) ids /\
    all_race_data (snd (round_body Mock.repr 2021 1 Mock.srv empty_state))
      = all_race_data empty_state ++ rows.
Proof.
  destruct (round_requests_in_order Mock.repr 2021 1 Mock.srv empty_state
              (snd (round_body Mock.repr 2021 1 Mock.srv empty_state))
              eq_refl) as [[Hskip _]|Hrows].
  - vm_compute in Hskip. discriminate Hskip.
  - exact Hrows.
Defined.

(** ** The qualifying join *)

Lemma build_row_qualifying_fields py_repr season round_number
    race_name circuit_name location race_date
    driver constructor driver_id driver_standing
    qual_position q1_time q2_time q3_time
    num_pitstops pitstop_details finishing_status res row :
  build_row py_repr season round_number
    race_name circuit_name location race_date
    driver constructor driver_id driver_standing
    qual_position q1_time q2_time q3_time
    num_pitstops pitstop_details finishing_status res = Ok row ->
  getitem row "Qualifying Position" = Ok qual_position /\
  getitem row "Q1 Time" = Ok q1_time /\
  getitem row "Q2 Time" = Ok q2_time /\
  getitem row "Q3 Time" = Ok q3_time.
Proof.
  unfold build_row. intros H.
  rbind_step H as given_name Egiven.
  rbind_step H as family_name Efamily.
  rbind_step H as nationality Enationality.
  rbind_step H as constructor_name Ename.
  rbind_step H as grid Egrid.
  rbind_step H as position Eposition.
  rbind_step H as timed Etimed.
  rbind_step H as time_or_status Etime.
  rbind_step H as points Epoints.
  rbind_step H as laps Elaps.
  rbind_step H as total_points Etotal.
  inversion H; subst row. repeat split.
Qed.

(** X5: in every row that is emitted, the four qualifying fields come from
    the binding the qualifying mapping has for the driver of the result:
    each is the binding's field, or "N/A" where the binding lacks it; a
    driver without a binding gets "N/A" in all four. *)
Theorem qualifying_fields_from_mapping :
  forall py_repr season round_number
         race_name circuit_name location race_date standings
         qualifying_data res srv st st',
    result_body py_repr season round_number
      race_name circuit_name location race_date standings
      qualifying_data res srv st = (Ok tt, st') ->
    exists row driver_id,
      all_race_data st' = all_race_data st ++ [row] /\
      driver_id_of res = Ok driver_id /\
      match keyed_find driver_id qualifying_data with
      | Some info =>
          getitem row "Qualifying Position"
            = py_get info "position" (PStr "N/A") /\
          getitem row "Q1 Time" = py_get info "Q1" (PStr "N/A") /\
          getitem row "Q2 Time" = py_get info "Q2" (PStr "N/A") /\
          getitem row "Q3 Time" = py_get info "Q3" (PStr "N/A")
      | None =>
          getitem row "Qualifying Position" = Ok (PStr "N/A") /\
          getitem row "Q1 Time" = Ok (PStr "N/A") /\
          getitem row "Q2 Time" = Ok (PStr "N/A") /\
          getitem row "Q3 Time" = Ok (PStr "N/A")
      end.
Proof.
  intros py_repr season round_number race_name circuit_name location
    race_date standings qualifying_data res srv st st' Hbody.
  apply result_body_inv in Hbody.
  destruct Hbody as
    (driver & constructor & id & items & driver_standing & qual_info &
     qual_position & q1 & q2 & q3 & pitstops & num & details & status & row &
     Hdriver & _ & Hid & _ & _ & Hinfo & Hqp & Hq1 & Hq2 & Hq3 & _ & _ & _ &
     _ & Hrow & ->).
  apply build_row_qualifying_fields in Hrow.
  destruct Hrow as (Hrqp & Hr1 & Hr2 & Hr3).
  exists row, id. split; [reflexivity|]. split.
  - unfold driver_id_of. rewrite Hdriver. exact Hid.
  - unfold keyed_get in Hinfo.
    destruct (hashable id); [|discriminate].
    destruct (keyed_find id qualifying_data) as [info|];
      inversion Hinfo; subst qual_info.
    + rewrite Hrqp, Hr1, Hr2, Hr3, Hqp, Hq1, Hq2, Hq3. auto.
    + simpl in Hqp, Hq1, Hq2, Hq3.
      rewrite Hrqp, Hr1, Hr2, Hr3, <- Hqp, <- Hq1, <- Hq2, <- Hq3. auto.
Qed.

Lemma qualifying_fields_from_mapping_witness :
  exists row driver_id,
    all_race_data (snd (Mock.join Mock.result_mazepin Mock.srv empty_state))
      = all_race_data empty_state ++ [row] /\
    driver_id_of Mock.result_mazepin = Ok driver_id /\
    match keyed_find driver_id Mock.qualifying_data with
    | Some info =>
        getitem row "Qualifying Position"
          = py_get info "position" (PStr "N/A") /\
        getitem row "Q1 Time" = py_get info "Q1" (PStr "N/A") /\
        getitem row "Q2 Time" = py_get info "Q2" (PStr "N/A") /\
        getitem row "Q3 Time" = py_get info "Q3" (PStr "N/A")
    | None =>
        getitem row "Qualifying Position" = Ok (PStr "N/A") /\
        getitem row "Q1 Time" = Ok (PStr "N/A") /\
        getitem row "Q2 Time" = Ok (PStr "N/A") /\
        getitem row "Q3 Time" = Ok (PStr "N/A")
    end.
Proof.
  apply (qualifying_fields_from_mapping Mock.repr 2021 1
           (PStr "Bahrain Grand Prix")
           (PStr "Bahrain International Circuit")
           (PStr "Sakhir") (PStr "2021-03-28")
           (PList Mock.standings) Mock.qualifying_data
           Mock.result_mazepin Mock.srv empty_state
           (snd (Mock.join Mock.result_mazepin Mock.srv empty_state))).
  reflexivity.
Defined.

(** ** The qualifying mapping of distinct drivers *)

Lemma py_eq_refl_hashable v : hashable v = true -> py_eq v v = true.
Proof.
  destruct v as [|b|z|s| |]; simpl; intros H; try discriminate.
  - reflexivity.
  - destruct b; reflexivity.
  - apply Z.eqb_refl.
  - apply String.eqb_refl.
Qed.

Lemma keyed_store_fresh k v d :
  Forall (fun kv => py_eq (fst kv) k = false) d ->
  keyed_store k v d = d ++ [(k, v)].
Proof.
  induction 1 as [|[k' v'] rest Hk _ IH]; simpl.
  - reflexivity.
  - simpl in Hk. rewrite Hk, IH. reflexivity.
Qed.

Lemma qualifying_entry_binding qd entry k v :
  qualifying_binding entry = Ok (k, v) ->
  hashable k = true ->
  qualifying_entry qd entry = Ok (keyed_store k v qd).
Proof.
  unfold qualifying_binding, qualifying_entry, driver_id_of.
  intros H Hhash.
  destruct (getitem entry "Driver") as [driver|]; [simpl in H|discriminate].
  rbind_step H as id Eid.
  rbind_step H as position Eposition.
  rbind_step H as q1 Eq1.
  rbind_step H as q2 Eq2.
  rbind_step H as q3 Eq3.
  inversion H; subst. simpl. rewrite Eid. simpl. rewrite Hhash. reflexivity.
Qed.

Lemma distinct_keys_app_cons l k r :
  distinct_keys (l ++ k :: r) ->
  Forall (fun k' => py_eq k' k = false) l /\ distinct_keys ((l ++ [k]) ++ r).
Proof.
  rewrite <- app_assoc. simpl. intros H. split; [|exact H].
  induction l as [|k' l IH]; simpl in *.
  - constructor.
  - destruct H as [Hall Hrest]. constructor; [|apply IH; exact Hrest].
    rewrite Forall_forall in Hall. apply Hall, in_or_app. right. left.
    reflexivity.
Qed.

Lemma qualifying_entries_fresh entries : forall acc bindings,
  map_result qualifying_binding entries = Ok bindings ->
  Forall (fun kv => hashable (fst kv) = true) bindings ->
  distinct_keys (map fst acc ++ map fst bindings) ->
  qualifying_entries acc entries = Ok (acc ++ bindings).
Proof.
  induction entries as [|entry rest IH]; simpl; intros acc bindings H Hhash Hd.
  - inversion H. rewrite app_nil_r. reflexivity.
  - rbind_step H as kv Ekv. rbind_step H as others Eothers.
    inversion H; subst bindings. destruct kv as [k v].
    inversion Hhash as [|? ? Hk Hrest]; subst. simpl in Hk, Hd.
    apply distinct_keys_app_cons in Hd. destruct Hd as [Hfresh Hd].
    rewrite (qualifying_entry_binding acc entry k v Ekv Hk). simpl.
    rewrite keyed_store_fresh.
    + rewrite (IH (acc ++ [(k, v)]) others eq_refl Hrest).
      * rewrite <- app_assoc. reflexivity.
      * rewrite map_app. exact Hd.
    + apply Forall_forall. intros [k' v'] Hin. simpl.
      rewrite Forall_forall in Hfresh. apply Hfresh.
      apply in_map_iff. exists (k', v'). auto.
Qed.

Lemma keyed_find_distinct d : forall k v,
  distinct_keys (map fst d) ->
  In (k, v) d ->
  py_eq k k = true ->
  keyed_find k d = Some v.
Proof.
  induction d as [|[k' v'] rest IH]; simpl; intros k v Hdistinct Hin Hrefl.
  - destruct Hin.
  - destruct Hdistinct as [Hall Hd]. destruct Hin as [Heq|Hin].
    + inversion Heq; subst. rewrite Hrefl. reflexivity.
    + rewrite Forall_forall in Hall.
      rewrite (Hall k) by (apply in_map_iff; exists (k, v); auto).
      apply IH; assumption.
Qed.

Lemma listed_qualifying_fetch response entries :
  status_code response = 200 ->
  listed_qualifying response entries ->
  qualifying_results_of response = qualifying_entries [] entries.
Proof.
  intros Hstatus (data & first & listed & Hdata & Hfirst & Hlisted & Hiter).
  unfold qualifying_results_of. rewrite Hstatus, Hdata. simpl.
  destruct first as [| | | | |d]; try discriminate.
  destruct data as [| | |s|l|]; try discriminate.
  - destruct s; discriminate.
  - destruct l as [|x l]; [discriminate|].
    simpl in Hfirst. inversion Hfirst; subst x.
    cbv beta iota delta [truthy py_len rbind].
    replace (Z.of_nat (List.length (PDict d :: l)) >? 0) with true
      by (simpl List.length; symmetry; apply Z.gtb_lt; lia).
    cbv beta iota delta [getitem0 rbind].
    simpl in Hlisted. unfold py_in.
    destruct (dict_get "QualifyingResults" d) as [v|] eqn:Eget;
      [|discriminate].
    inversion Hlisted; subst v.
    cbv beta iota delta [getitem rbind]. rewrite Eget, Hiter. reflexivity.
Qed.

(** X6: when the entries of a qualifying payload each have a driver
    identifier and a position, and their identifiers can key a dict and are
    pairwise different, the mapping the fetcher returns has one binding per
    entry, in the order of the payload, and looking a driver up in it gives
    back the binding of that driver's entry. *)
Theorem qualifying_mapping_of_distinct_drivers :
  forall response entries bindings,
    status_code response = 200 ->
    listed_qualifying response entries ->
    map_result qualifying_binding entries = Ok bindings ->
    Forall (fun kv => hashable (fst kv) = true) bindings ->
    distinct_keys (map fst bindings) ->
    qualifying_results_of response = Ok bindings /\
    forall driver_id info,
      In (driver_id, info) bindings ->
      keyed_get bindings driver_id (PDict []) = Ok info.
Proof.
  intros response entries bindings Hstatus Hlisted Hbindings Hhash Hdistinct.
  split.
  - rewrite (listed_qualifying_fetch _ _ Hstatus Hlisted).
    apply (qualifying_entries_fresh entries [] bindings); assumption.
  - intros id info Hin. unfold keyed_get.
    rewrite Forall_forall in Hhash.
    assert (Hid : hashable id = true) by apply (Hhash _ Hin).
    rewrite Hid.
    rewrite (keyed_find_distinct bindings id info Hdistinct Hin
               (py_eq_refl_hashable id Hid)).
    reflexivity.
Qed.

Lemma qualifying_mapping_of_distinct_drivers_witness :
  qualifying_results_of (Mock.srv (qualifying_url 2021 1))
    = Ok Mock.qualifying_data /\
  forall driver_id info,
    In (driver_id, info) Mock.qualifying_data ->
    keyed_get Mock.qualifying_data driver_id (PDict []) = Ok info.
Proof.
  apply (qualifying_mapping_of_distinct_drivers
           (Mock.srv (qualifying_url 2021 1)) Mock.qualifying
           Mock.qualifying_data).
  - reflexivity.
  - exists (PList [PDict [("QualifyingResults", PList Mock.qualifying)]]),
      (PDict [("QualifyingResults", PList Mock.qualifying)]),
      (PList Mock.qualifying).
    repeat split.
  - reflexivity.
  - repeat constructor.
  - simpl. repeat constructor.
Defined.

(** ** What the fetchers read of a payload *)

Lemma length_cons_positive {A : Type} (x : A) l :
  (Z.of_nat (List.length (x :: l)) >? 0) = true.
Proof. simpl List.length. apply Z.gtb_lt. lia. Qed.

(** X7: on a success response the results, pit-stop and qualifying
    fetchers return their empty value when the race list is empty, and
    otherwise read the first race only.  There the results fetcher returns
    what the subscript ["Results"] gives, its [KeyError] included when the
    key is missing, while a missing ["PitStops"] or ["QualifyingResults"]
    gives the empty list or the empty mapping. *)
Theorem race_fetchers_read_first_race :
  forall response races,
    status_code response = 200 ->
    mrdata response "RaceTable" "Races" = Ok races ->
    (truthy races = false ->
     race_results_of response = Ok (PList []) /\
     pitstops_of response = Ok (PList []) /\
     qualifying_results_of response = Ok []) /\
    (forall first others,
        races = PList (PDict first :: others) ->
        race_results_of response = getitem (PDict first) "Results" /\
        pitstops_of response =
          Ok match dict_get "PitStops" first with
             | Some stops => stops
             | None => PList []
             end /\
        qualifying_results_of response =
          match dict_get "QualifyingResults" first with
          | Some listed =>
              entries <~ py_iter listed ;; qualifying_entries [] entries
          | None => Ok []
          end).
Proof.
  intros response races Hstatus Hraces.
  unfold race_results_of, pitstops_of, qualifying_results_of.
  rewrite Hstatus, Hraces. cbv beta iota delta [Z.eqb Pos.eqb rbind].
  split.
  - intros ->. auto.
  - intros first others ->.
    cbv beta iota delta [truthy getitem0 py_len py_in rbind].
    rewrite length_cons_positive.
    destruct (dict_get "PitStops" first) as [stops|] eqn:Estops;
      destruct (dict_get "QualifyingResults" first) as [listed|] eqn:Elisted;
      cbv beta iota delta [getitem]; rewrite ?Estops, ?Elisted; auto.
Qed.

Lemma race_fetchers_read_first_race_witness :
  race_results_of (Mock.srv (results_url 2021 1))
    = getitem (PDict [("Results", PList Mock.results)]) "Results" /\
  pitstops_of (Mock.srv (results_url 2021 1)) = Ok (PList []) /\
  qualifying_results_of (Mock.srv (results_url 2021 1)) = Ok [].
Proof.
  exact (proj2 (race_fetchers_read_first_race
                  (Mock.srv (results_url 2021 1))
                  (PList [PDict [("Results", PList Mock.results)]])
                  eq_refl eq_refl)
           [("Results", PList Mock.results)] [] eq_refl).
Defined.

(** X8: on a success response the standings fetcher returns the empty list
    when the list of standings lists is empty, and otherwise what the
    subscript ["DriverStandings"] gives on the first standings list, its
    exception included; the other lists play no part. *)
Theorem standings_fetcher_reads_first_list :
  forall response lists,
    status_code response = 200 ->
    mrdata response "StandingsTable" "StandingsLists" = Ok lists ->
    (truthy lists = false -> driver_standings_of response = Ok (PList [])) /\
    (forall first others,
        lists = PList (first :: others) ->
        driver_standings_of response = getitem first "DriverStandings").
Proof.
  intros response lists Hstatus Hlists.
  unfold driver_standings_of.
  rewrite Hstatus, Hlists. cbv beta iota delta [Z.eqb Pos.eqb rbind].
  split.
  - intros ->. reflexivity.
  - intros first others ->.
    cbv beta iota delta [truthy py_len getitem0 rbind].
    rewrite length_cons_positive. reflexivity.
Qed.

Lemma standings_fetcher_reads_first_list_witness :
  driver_standings_of (Mock.srv (standings_url 2021 1))
    = getitem (PDict [("DriverStandings", PList Mock.standings)])
        "DriverStandings".
Proof.
  exact (proj2 (standings_fetcher_reads_first_list
                  (Mock.srv (standings_url 2021 1))
                  (PList [PDict [("DriverStandings", PList Mock.standings)]])
                  eq_refl eq_refl)
           (PDict [("DriverStandings", PList Mock.standings)]) [] eq_refl).
Defined.

(** ** The order of the probes *)

Lemma rounds_without_race py_repr srv season :
  (forall round_number,
      status_code (srv (race_url season round_number)) <> 200) ->
  forall rounds st,
    exists lines,
      for_each rounds (round_body py_repr season) srv st =
      (Ok tt,
       mkState (requests st ++ map (race_url season) rounds)
               (stdout st ++ lines) (all_race_data st)).
Proof.
  intros Habsent. induction rounds as [|round_number rest IH]; intros st.
  - exists []. simpl. rewrite !app_nil_r. destruct st. reflexivity.
  - rewrite for_each_cons.
    rewrite (round_body_skip py_repr _ _ _ _ _ _
               (fetch_race_data_non_success season round_number srv st
                  (Habsent round_number)) eq_refl).
    match goal with
    | |- context [for_each rest _ srv ?st1] =>
        destruct (IH st1) as [lines Hrest]; rewrite Hrest
    end.
    simpl. eexists. rewrite <- !app_assoc. reflexivity.
Qed.

Lemma seasons_without_race py_repr srv :
  (forall season round_number,
      status_code (srv (race_url season round_number)) <> 200) ->
  forall seasons st,
    exists lines,
      for_each seasons (season_body py_repr) srv st =
      (Ok tt,
       mkState
         (requests st
          ++ flat_map (fun season => map (race_url season) round_numbers)
               seasons)
         (stdout st ++ lines) (all_race_data st)).
Proof.
  intros Habsent. induction seasons as [|season rest IH]; intros st.
  - exists []. simpl. rewrite !app_nil_r. destruct st. reflexivity.
  - rewrite for_each_cons. unfold season_body at 1, bind at 1.
    destruct (rounds_without_race py_repr srv season (Habsent season)
                round_numbers st) as [lines Hrounds].
    rewrite Hrounds. cbv beta iota delta [print requests stdout all_race_data].
    match goal with
    | |- context [for_each rest _ srv ?st1] =>
        destruct (IH st1) as [lines' Hrest]; rewrite Hrest
    end.
    cbv beta iota delta [requests stdout all_race_data].
    eexists. cbn [flat_map]. rewrite <- !app_assoc. reflexivity.
Qed.

(** X9: against a service that has no race at all (no race request meets
    status 200) the run ends normally without a row, and its requests are
    exactly the race URLs of the rounds 1 to 29 of the seasons 2010 to
    2024, season by season in ascending order and, within a season, round
    by round in ascending order: 435 requests. *)
Theorem run_without_races_probes_in_order :
  forall py_repr srv,
    (forall season round_number,
        status_code (srv (race_url season round_number)) <> 200) ->
    fst (run py_repr srv) = Ok tt /\
    all_race_data (snd (run py_repr srv)) = [] /\
    requests (snd (run py_repr srv)) =
      flat_map (fun season => map (race_url season) (range 1 30))
        (range 2010 2025) /\
    List.length (requests (snd (run py_repr srv))) = 435%nat.
Proof.
  intros py_repr srv Habsent.
  assert (Hrun : exists lines,
            run py_repr srv =
            (Ok tt,
             mkState
               (flat_map (fun season => map (race_url season) (range 1 30))
                  (range 2010 2025))
               lines [])).
  { unfold run, main, bind at 1.
    cbv beta iota delta [clear_rows empty_state requests stdout].
    unfold bind at 1.
    destruct (seasons_without_race py_repr srv Habsent
                (range start_season (end_season + 1)) (mkState [] [] []))
      as [lines Hloop].
    rewrite Hloop. eexists. reflexivity. }
  destruct Hrun as [lines ->]. simpl fst. simpl snd.
  cbv beta iota delta [requests all_race_data].
  repeat split.
Qed.

Lemma run_without_races_probes_in_order_witness :
  fst (run Mock.repr (fun _ => Mock.not_found)) = Ok tt /\
  all_race_data (snd (run Mock.repr (fun _ => Mock.not_found))) = [] /\
  requests (snd (run Mock.repr (fun _ => Mock.not_found))) =
    flat_map (fun season => map (race_url season) (range 1 30))
      (range 2010 2025) /\
  List.length (requests (snd (run Mock.repr (fun _ => Mock.not_found))))
    = 435%nat.
Proof.
  apply (run_without_races_probes_in_order Mock.repr
           (fun _ => Mock.not_found)).
  intros season round_number. simpl. lia.
Defined.

(** ** Rounds that end early *)

(** X10: the round loop tests the race with [not race], so a first race
    that is falsy (an empty object, say) is skipped like an absent one:
    the round ends normally after the race request alone, without a row,
    and, unlike for an empty race list, without a printed line. *)
Theorem falsy_first_race_is_skipped_silently :
  forall py_repr srv season round_number st first others,
    status_code (srv (race_url season round_number)) = 200 ->
    mrdata (srv (race_url season round_number)) "RaceTable" "Races"
      = Ok (PList (first :: others)) ->
    truthy first = false ->
    round_body py_repr season round_number srv st =
    (Ok tt,
     mkState (requests st ++ [race_url season round_number])
             (stdout st) (all_race_data st)).
Proof.
  intros py_repr srv season round_number st first others Hstatus Hraces
    Hfalsy.
  apply (round_body_skip py_repr season round_number srv st first);
    [|exact Hfalsy].
  rewrite fetch_race_data_eq. cbv zeta. rewrite Hstatus, Hraces.
  reflexivity.
Qed.

Lemma falsy_first_race_is_skipped_silently_witness :
  round_body Mock.repr 2021 1 MockEmptyRace.srv empty_state =
  (Ok tt, mkState ([] ++ [race_url 2021 1]) [] []).
Proof.
  apply (falsy_first_race_is_skipped_silently Mock.repr MockEmptyRace.srv
           2021 1 empty_state (PDict []) []); reflexivity.
Defined.

Lemma round_body_after_race py_repr season round_number srv st race st1 :
  fetch_race_data season round_number srv st = (Ok race, st1) ->
  RaceRecord race ->
  exists race_name circuit_name location race_date,
    round_body py_repr season round_number srv st =
    (race_results <- fetch_race_results season round_number ;;
     standings <- fetch_driver_standings season round_number ;;
     qualifying_data <- fetch_qualifying_results season round_number ;;
     results <- lift (py_iter race_results) ;;
     for_each results
       (result_body py_repr season round_number
          race_name circuit_name location race_date standings
          qualifying_data)) srv st1.
Proof.
  intros Hfetch
    ([name Hname] & [date Hdate] & circuit & place & Hcircuit &
     [cname Hcname] & Hplace & [locality Hlocality]).
  exists name, cname, locality, date.
  unfold round_body, bind at 1. rewrite Hfetch.
  rewrite (getitem_truthy _ _ _ Hname). cbv beta iota delta [negb].
  rewrite (bind_lift_ok _ _ _ _ _ Hname).
  rewrite (bind_lift_ok _ cname) by (rewrite Hcircuit; exact Hcname).
  rewrite (bind_lift_ok _ locality)
    by (rewrite Hcircuit; simpl; rewrite Hplace; exact Hlocality).
  rewrite (bind_lift_ok _ _ _ _ _ Hdate).
  reflexivity.
Qed.

(** X11: nothing catches an exception of a round-scoped fetch.  After a
    race record was fetched, an exception raised while reading the results
    payload ends the round body right after the results request; one
    raised while reading the standings payload ends it after the standings
    request, and one raised while reading the qualifying payload after the
    qualifying request.  In each case no later request of the round is
    made and no row is appended. *)
Theorem raising_fetch_ends_the_round :
  forall py_repr srv season round_number st st1 race e,
    fetch_race_data season round_number srv st = (Ok race, st1) ->
    RaceRecord race ->
    (race_results_of (srv (results_url season round_number)) = Raise e ->
     round_body py_repr season round_number srv st =
     (Raise e,
      mkState (requests st1 ++ [results_url season round_number])
              (stdout st1) (all_race_data st1))) /\
    (forall race_results,
        race_results_of (srv (results_url season round_number))
          = Ok race_results ->
        driver_standings_of (srv (standings_url season round_number))
          = Raise e ->
        round_body py_repr season round_number srv st =
        (Raise e,
         mkState (requests st1 ++ [results_url season round_number;
                                   standings_url season round_number])
                 (stdout st1) (all_race_data st1))) /\
    (forall race_results standings,
        race_results_of (srv (results_url season round_number))
          = Ok race_results ->
        driver_standings_of (srv (standings_url season round_number))
          = Ok standings ->
        qualifying_results_of (srv (qualifying_url season round_number))
          = Raise e ->
        round_body py_repr season round_number srv st =
        (Raise e,
         mkState (requests st1 ++ [results_url season round_number;
                                   standings_url season round_number;
                                   qualifying_url season round_number])
                 (stdout st1) (all_race_data st1))).
Proof.
  intros py_repr srv season round_number st st1 race e Hfetch Hrace.
  destruct (round_body_after_race py_repr _ _ _ _ _ _ Hfetch Hrace)
    as (race_name & circuit_name & location & race_date & ->).
  unfold fetch_race_results, fetch_driver_standings,
    fetch_qualifying_results.
  split; [|split].
  - intros Hresults. rewrite bind_fetch, Hresults. reflexivity.
  - intros race_results Hresults Hstandings.
    rewrite bind_fetch, Hresults, bind_fetch, Hstandings.
    cbv beta iota delta [requests stdout all_race_data].
    rewrite <- app_assoc. reflexivity.
  - intros race_results standings Hresults Hstandings Hqualifying.
    rewrite bind_fetch, Hresults, bind_fetch, Hstandings, bind_fetch,
      Hqualifying.
    cbv beta iota delta [requests stdout all_race_data].
    rewrite <- !app_assoc. reflexivity.
Qed.

Lemma raising_fetch_ends_the_round_witness :
  round_body Mock.repr 2021 1 MockNoResults.srv empty_state =
  (Raise KeyError,
   mkState ([race_url 2021 1] ++ [results_url 2021 1]) [] []).
Proof.
  apply (raising_fetch_ends_the_round Mock.repr MockNoResults.srv 2021 1
           empty_state (mkState [race_url 2021 1] [] []) Mock.race KeyError).
  - reflexivity.
  - unfold RaceRecord, has.
    split; [eexists; reflexivity|]. split; [eexists; reflexivity|].
    do 2 eexists.
    split; [reflexivity|]. split; [eexists; reflexivity|].
    split; [reflexivity | eexists; reflexivity].
  - reflexivity.
Defined.

(** ** The finishing-status fetcher *)

Lemma append_cons c a b : String c a +s+ b = String c (a +s+ b).
Proof. reflexivity. Qed.

Lemma append_assoc a b c : (a +s+ b) +s+ c = a +s+ (b +s+ c).
Proof.
  induction a as [|x a IH]; [reflexivity|].
  rewrite !append_cons, IH. reflexivity.
Qed.

Lemma length_append a b :
  String.length (a +s+ b) = (String.length a + String.length b)%nat.
Proof.
  induction a as [|x a IH]; [reflexivity|].
  rewrite append_cons. simpl. rewrite IH. reflexivity.
Qed.

Lemma drop_length_append a b : drop (String.length a) (a +s+ b) = b.
Proof.
  induction a as [|x a IH]; [reflexivity|].
  rewrite append_cons. simpl. exact IH.
Qed.

Lemma ending_append a b :
  String.length b = 12%nat -> ending (a +s+ b) = b.
Proof.
  intros Hb. unfold ending. rewrite length_append, Hb.
  replace (String.length a + 12 - 12)%nat with (String.length a) by lia.
  apply drop_length_append.
Qed.

Lemma range_in lo hi x : lo <= x < hi -> In x (range lo hi).
Proof.
  intros Hx. unfold range. apply in_map_iff.
  exists (Z.to_nat (x - lo)). split; [lia|]. apply in_seq. lia.
Qed.

Lemma status_url_ending py_repr season driver_id :
  ending (status_url py_repr season driver_id) = "/status.json".
Proof.
  unfold status_url. rewrite <- !append_assoc.
  apply ending_append. reflexivity.
Qed.

Lemma round_url_ending py_repr season round_number url :
  2010 <= season <= 2024 -> 1 <= round_number <= 29 ->
  url_of_round py_repr season round_number url ->
  ending url <> "/status.json".
Proof.
  intros Hseason Hround [->|[->|[->|[->|[id ->]]]]].
  - assert (Hall : forallb
                     (fun s =>
                        forallb
                          (fun r => negb (String.eqb (ending (race_url s r))
                                            "/status.json"))
                          (range 1 30))
                     (range 2010 2025) = true)
      by (vm_compute; reflexivity).
    assert (Hs : In season (range 2010 2025)) by (apply range_in; lia).
    assert (Hr : In round_number (range 1 30)) by (apply range_in; lia).
    rewrite forallb_forall in Hall. specialize (Hall season Hs).
    rewrite forallb_forall in Hall. specialize (Hall round_number Hr).
    intros Heq. rewrite Heq in Hall. discriminate Hall.
  - unfold results_url.
    change "/results.json" with ("/" +s+ "results.json").
    rewrite <- !append_assoc, ending_append by reflexivity. discriminate.
  - unfold standings_url.
    change "/driverStandings.json" with ("/driverSt" +s+ "andings.json").
    rewrite <- !append_assoc, ending_append by reflexivity. discriminate.
  - unfold qualifying_url.
    change "/qualifying.json" with ("/qua" +s+ "lifying.json").
    rewrite <- !append_assoc, ending_append by reflexivity. discriminate.
  - unfold pitstops_url.
    change "/pitstops.json" with ("/p" +s+ "itstops.json").
    rewrite <- !append_assoc, ending_append by reflexivity. discriminate.
Qed.

(** X12: [main] never calls the finishing-status fetcher: whatever the
    service answers, no request of a run goes to the status URL of any
    season and driver. *)
Theorem run_never_requests_finishing_status :
  forall py_repr srv season driver_id,
    ~ In (status_url py_repr season driver_id)
         (requests (snd (run py_repr srv))).
Proof.
  intros py_repr srv season driver_id Hin.
  assert (Hurls : Forall
            (fun url => exists s r,
                 2010 <= s <= 2024 /\ 1 <= r <= 29 /\
                 url_of_round py_repr s r url)
            (requests (snd (run py_repr srv)))).
  { unfold run, main, bind at 1.
    cbv beta iota delta [clear_rows empty_state requests stdout].
    destruct (appends_main_loop py_repr srv (mkState [] [] []))
      as (urls & lines & rows & Hst & Hurls & _).
    rewrite Hst. exact Hurls. }
  rewrite Forall_forall in Hurls.
  destruct (Hurls _ Hin) as (s & r & Hs & Hr & Hshape).
  apply (round_url_ending py_repr s r _ Hs Hr Hshape).
  apply status_url_ending.
Qed.

(** X13: the finishing-status fetcher makes one request, to the status URL
    of the season and driver, and touches neither the rows nor the printed
    lines.  On a status other than 200 it returns the empty list; on 200 it
    returns what the payload holds under MRData, StatusTable, Status as it
    stands, be it empty or not a list, and raises where that path is
    missing. *)
Theorem finishing_status_fetcher_passes_status_through :
  forall py_repr srv season driver_id st,
    snd (fetch_finishing_status_for_season_driver py_repr season driver_id
           srv st)
      = mkState (requests st ++ [status_url py_repr season driver_id])
                (stdout st) (all_race_data st) /\
    (status_code (srv (status_url py_repr season driver_id)) <> 200 ->
     fst (fetch_finishing_status_for_season_driver py_repr season driver_id
            srv st) = Ok (PList [])) /\
    (status_code (srv (status_url py_repr season driver_id)) = 200 ->
     fst (fetch_finishing_status_for_season_driver py_repr season driver_id
            srv st)
       = mrdata (srv (status_url py_repr season driver_id))
           "StatusTable" "Status").
Proof.
  intros py_repr srv season driver_id st.
  unfold fetch_finishing_status_for_season_driver.
  rewrite bind_requests_get. unfold lift, finishing_status_of.
  split; [reflexivity|]. split.
  - intros Hstatus. apply Z.eqb_neq in Hstatus. simpl. rewrite Hstatus.
    reflexivity.
  - intros Hstatus. simpl. rewrite Hstatus. reflexivity.
Qed.

Lemma finishing_status_fetcher_passes_status_through_witness :
  fst (fetch_finishing_status_for_season_driver Mock.repr 2021
         (PStr "hamilton") Mock.srv empty_state) = Ok (PList []) /\
  fst (fetch_finishing_status_for_season_driver Mock.repr 2021
         (PStr "hamilton") MockBare.srv empty_state) = Raise KeyError.
Proof.
  destruct (finishing_status_fetcher_passes_status_through Mock.repr Mock.srv
              2021 (PStr "hamilton") empty_state) as (_ & Hnot & _).
  destruct (finishing_status_fetcher_passes_status_through Mock.repr
              MockBare.srv 2021 (PStr "hamilton") empty_state)
    as (_ & _ & Hok).
  split.
  - apply Hnot. vm_compute. discriminate.
  - rewrite (Hok eq_refl). reflexivity.
Defined.

(** ** More on the fields of a row *)

Lemma concat_starts_with_first sep text texts :
  exists rest, String.concat sep (text :: texts) = text +s+ rest.
Proof.
  destruct texts as [|t ts].
  - exists EmptyString. simpl. induction text as [|c text IH];
      [reflexivity | rewrite append_cons, <- IH; reflexivity].
  - eexists. reflexivity.
Qed.

(** X14: in every row that is emitted, "Pit Stop Details" is "No Pitstops"
    exactly when "Pit Stop Count" is 0. *)
Theorem no_pitstops_exactly_when_count_is_zero :
  forall py_repr season round_number
         race_name circuit_name location race_date standings
         qualifying_data res srv st st',
    result_body py_repr season round_number
      race_name circuit_name location race_date standings
      qualifying_data res srv st = (Ok tt, st') ->
    exists row,
      all_race_data st' = all_race_data st ++ [row] /\
      (getitem row "Pit Stop Count" = Ok (PInt 0) <->
       getitem row "Pit Stop Details" = Ok (PStr "No Pitstops")).
Proof.
  intros py_repr season round_number race_name circuit_name location
    race_date standings qualifying_data res srv st st' Hbody.
  apply result_body_inv in Hbody.
  destruct Hbody as
    (driver & constructor & id & items' & driver_standing & qual_info &
     qual_position & q1 & q2 & q3 & pitstops & num & details & status & row &
     _ & _ & _ & _ & _ & _ & _ & _ & _ & _ & _ & Hlen & Hdetails & _ &
     Hrow & ->).
  destruct (pitstop_fields _ _ _ _ Hlen Hdetails)
    as (items & texts & Hiter & Htexts & -> & ->).
  apply build_row_fields in Hrow.
  destruct Hrow as (_ & _ & _ & _ & _ & _ & _ & _ & _ & _ & Hcount & Hdet).
  exists row. split; [reflexivity|]. rewrite Hcount, Hdet.
  destruct items as [|p rest].
  - split; reflexivity.
  - split; intros H; exfalso.
    + inversion H.
    + inversion Htexts as [|? text ? ts (stop & lap & duration & _ & _ & _ & Htext) _];
        subst.
      destruct (concat_starts_with_first "; "
                  ("Stop " +s+ py_str py_repr stop +s+ " @Lap "
                   +s+ py_str py_repr lap +s+ " (Duration="
                   +s+ py_str py_repr duration +s+ "s)") ts)
        as [tail Htail].
      rewrite Htail in H. inversion H.
Qed.

Lemma no_pitstops_exactly_when_count_is_zero_witness :
  exists row,
    all_race_data (snd (Mock.join Mock.result_mazepin Mock.srv empty_state))
      = all_race_data empty_state ++ [row] /\
    (getitem row "Pit Stop Count" = Ok (PInt 0) <->
     getitem row "Pit Stop Details" = Ok (PStr "No Pitstops")).
Proof.
  apply (no_pitstops_exactly_when_count_is_zero Mock.repr 2021 1
           (PStr "Bahrain Grand Prix")
           (PStr "Bahrain International Circuit")
           (PStr "Sakhir") (PStr "2021-03-28")
           (PList Mock.standings) Mock.qualifying_data
           Mock.result_mazepin Mock.srv empty_state
           (snd (Mock.join Mock.result_mazepin Mock.srv empty_state))).
  reflexivity.
Defined.

Lemma build_row_identity_fields py_repr season round_number
    race_name circuit_name location race_date
    driver constructor driver_id driver_standing
    qual_position q1_time q2_time q3_time
    num_pitstops pitstop_details finishing_status res row :
  build_row py_repr season round_number
    race_name circuit_name location race_date
    driver constructor driver_id driver_standing
    qual_position q1_time q2_time q3_time
    num_pitstops pitstop_details finishing_status res = Ok row ->
  (getitem row "Race Name" = Ok race_name /\
   getitem row "Circuit Name" = Ok circuit_name /\
   getitem row "Location" = Ok location /\
   getitem row "Race Date" = Ok race_date) /\
  exists given_name family_name,
    getitem driver "givenName" = Ok given_name /\
    getitem driver "familyName" = Ok family_name /\
    getitem row "Driver Name"
      = Ok (PStr (py_str py_repr given_name +s+ " "
                  +s+ py_str py_repr family_name)) /\
    getitem row "Driver Nationality" = getitem driver "nationality" /\
    getitem row "Constructor" = getitem constructor "name".
Proof.
  unfold build_row. intros H.
  rbind_step H as given_name Egiven.
  rbind_step H as family_name Efamily.
  rbind_step H as nationality Enationality.
  rbind_step H as constructor_name Ename.
  rbind_step H as grid Egrid.
  rbind_step H as position Eposition.
  rbind_step H as timed Etimed.
  rbind_step H as time_or_status Etime.
  rbind_step H as points Epoints.
  rbind_step H as laps Elaps.
  rbind_step H as total_points Etotal.
  inversion H; subst row. split; [repeat split|].
  exists given_name, family_name. repeat split.
Qed.

(** X15: in every row that is emitted, "Driver Name" is the given name and
    the family name of the result's driver joined by one space, "Driver
    Nationality" is the driver's nationality and "Constructor" is the name
    of the result's constructor. *)
Theorem driver_identity_fields :
  forall py_repr season round_number
         race_name circuit_name location race_date standings
         qualifying_data res srv st st',
    result_body py_repr season round_number
      race_name circuit_name location race_date standings
      qualifying_data res srv st = (Ok tt, st') ->
    exists row driver constructor given_name family_name,
      all_race_data st' = all_race_data st ++ [row] /\
      getitem res "Driver" = Ok driver /\
      getitem res "Constructor" = Ok constructor /\
      getitem driver "givenName" = Ok given_name /\
      getitem driver "familyName" = Ok family_name /\
      getitem row "Driver Name"
        = Ok (PStr (py_str py_repr given_name +s+ " "
                    +s+ py_str py_repr family_name)) /\
      getitem row "Driver Nationality" = getitem driver "nationality" /\
      getitem row "Constructor" = getitem constructor "name".
Proof.
  intros py_repr season round_number race_name circuit_name location
    race_date standings qualifying_data res srv st st' Hbody.
  apply result_body_inv in Hbody.
  destruct Hbody as
    (driver & constructor & id & items' & driver_standing & qual_info &
     qual_position & q1 & q2 & q3 & pitstops & num & details & status & row &
     Hdriver & Hconstructor & _ & _ & _ & _ & _ & _ & _ & _ & _ & _ & _ & _ &
     Hrow & ->).
  apply build_row_identity_fields in Hrow.
  destruct Hrow as (_ & given & family & Hgiven & Hfamily & Hname & Hnat & Hc).
  exists row, driver, constructor, given, family. repeat split; assumption.
Qed.

Lemma driver_identity_fields_witness :
  exists row driver constructor given_name family_name,
    all_race_data (snd (Mock.join Mock.result_hamilton Mock.srv empty_state))
      = all_race_data empty_state ++ [row] /\
    getitem Mock.result_hamilton "Driver" = Ok driver /\
    getitem Mock.result_hamilton "Constructor" = Ok constructor /\
    getitem driver "givenName" = Ok given_name /\
    getitem driver "familyName" = Ok family_name /\
    getitem row "Driver Name"
      = Ok (PStr (py_str Mock.repr given_name +s+ " "
                  +s+ py_str Mock.repr family_name)) /\
    getitem row "Driver Nationality" = getitem driver "nationality" /\
    getitem row "Constructor" = getitem constructor "name".
Proof.
  apply (driver_identity_fields Mock.repr 2021 1
           (PStr "Bahrain Grand Prix")
           (PStr "Bahrain International Circuit")
           (PStr "Sakhir") (PStr "2021-03-28")
           (PList Mock.standings) Mock.qualifying_data
           Mock.result_hamilton Mock.srv empty_state
           (snd (Mock.join Mock.result_hamilton Mock.srv empty_state))).
  reflexivity.
Defined.

Lemma appends_results_loop py_repr season round_number
    race_name circuit_name location race_date standings qualifying_data
    results :
  appends (fun _ => True)
    (fun row =>
       getitem row "Race Name" = Ok race_name /\
       getitem row "Circuit Name" = Ok circuit_name /\
       getitem row "Location" = Ok location /\
       getitem row "Race Date" = Ok race_date)
    (for_each results
       (result_body py_repr season round_number
          race_name circuit_name location race_date standings
          qualifying_data)).
Proof.
  apply appends_for_each. intros res _. unfold result_body.
  do 9 (apply appends_bind; [apply appends_lift | intro]).
  apply appends_bind.
  { unfold fetch_pitstops. apply appends_bind.
    - apply appends_requests_get. exact I.
    - intros response. apply appends_lift. }
  intros pitstops.
  do 4 (apply appends_bind; [apply appends_lift | intro]).
  apply appends_bind_lift. intros row Hrow.
  apply appends_append_row.
  apply build_row_identity_fields in Hrow. tauto.
Qed.

(** X16: the rows of a round all carry the race the round fetched: whatever
    rows the round body appends, also when it is cut short by an
    exception, each has the name, the circuit name, the locality and the
    date of that race in "Race Name", "Circuit Name", "Location" and "Race
    Date". *)
Theorem rows_of_a_round_share_the_race :
  forall py_repr season round_number srv st race st1,
    fetch_race_data season round_number srv st = (Ok race, st1) ->
    exists rows,
      all_race_data (snd (round_body py_repr season round_number srv st))
        = all_race_data st ++ rows /\
      Forall
        (fun row =>
           getitem row "Race Name" = getitem race "raceName" /\
           getitem row "Circuit Name" =
             (circuit <~ getitem race "Circuit" ;;
              getitem circuit "circuitName") /\
           getitem row "Location" =
             (circuit <~ getitem race "Circuit" ;;
              place <~ getitem circuit "Location" ;;
              getitem place "locality") /\
           getitem row "Race Date" = getitem race "date")
        rows.
Proof.
  intros py_repr season round_number srv st race st1 Hfetch.
  destruct (fetch_race_data_state _ _ _ _ _ _ Hfetch) as [_ Hrows1].
  assert (Hnone : forall e,
             exists rows,
               all_race_data (snd (@Raise unit e, st1))
                 = all_race_data st ++ rows /\
               Forall
                 (fun row =>
                    getitem row "Race Name" = getitem race "raceName" /\
                    getitem row "Circuit Name" =
                      (circuit <~ getitem race "Circuit" ;;
                       getitem circuit "circuitName") /\
                    getitem row "Location" =
                      (circuit <~ getitem race "Circuit" ;;
                       place <~ getitem circuit "Location" ;;
                       getitem place "locality") /\
                    getitem row "Race Date" = getitem race "date")
                 rows).
  { intros e. exists []. simpl. rewrite app_nil_r. auto. }
  unfold round_body, bind at 1. rewrite Hfetch.
  destruct (negb (truthy race)).
  { exists []. simpl. rewrite app_nil_r. auto. }
  rewrite bind_lift.
  destruct (getitem race "raceName") as [race_name|e]; [|apply Hnone].
  rewrite bind_lift.
  destruct (circuit <~ getitem race "Circuit" ;;
            getitem circuit "circuitName") as [circuit_name|e];
    [|apply Hnone].
  rewrite bind_lift.
  destruct (circuit <~ getitem race "Circuit" ;;
            place <~ getitem circuit "Location" ;;
            getitem place "locality") as [location|e]; [|apply Hnone].
  rewrite bind_lift.
  destruct (getitem race "date") as [race_date|e]; [|apply Hnone].
  match goal with
  | |- context [snd (?m srv st1)] =>
      assert (Hm : appends (fun _ => True)
                     (fun row =>
                        getitem row "Race Name" = Ok race_name /\
                        getitem row "Circuit Name" = Ok circuit_name /\
                        getitem row "Location" = Ok location /\
                        getitem row "Race Date" = Ok race_date) m)
  end.
  { assert (Hget : forall {A : Type} url (f : response -> outcome A),
               appends (fun _ => True)
                 (fun row =>
                    getitem row "Race Name" = Ok race_name /\
                    getitem row "Circuit Name" = Ok circuit_name /\
                    getitem row "Location" = Ok location /\
                    getitem row "Race Date" = Ok race_date)
                 (bind (requests_get url)
                       (fun response => lift (f response)))).
    { intros A url f. apply appends_bind.
      - apply appends_requests_get. exact I.
      - intros response. apply appends_lift. }
    do 3 (apply appends_bind; [apply Hget | intro]).
    apply appends_bind; [apply appends_lift | intros results].
    apply appends_results_loop. }
  destruct (Hm srv st1) as (urls & lines & rows & Hst & _ & Hrows).
  exists rows. rewrite Hst. simpl. rewrite Hrows1. auto.
Qed.

Lemma rows_of_a_round_share_the_race_witness :
  exists rows,
    all_race_data (snd (round_body Mock.repr 2021 1 Mock.srv empty_state))
      = all_race_data empty_state ++ rows /\
    Forall
      (fun row =>
         getitem row "Race Name" = getitem Mock.race "raceName" /\
         getitem row "Circuit Name" =
           (circuit <~ getitem Mock.race "Circuit" ;;
            getitem circuit "circuitName") /\
         getitem row "Location" =
           (circuit <~ getitem Mock.race "Circuit" ;;
            place <~ getitem circuit "Location" ;;
            getitem place "locality") /\
         getitem row "Race Date" = getitem Mock.race "date")
      rows.
Proof.
  apply (rows_of_a_round_share_the_race Mock.repr 2021 1 Mock.srv
           empty_state Mock.race (mkState [race_url 2021 1] [] [])).
  reflexivity.
Defined.

(** ** The diagnostics of the race fetcher *)

(** X17: the race fetcher tells its two ways of finding no race apart on
    the output: a status other than 200 prints one line that starts with
    "[ERROR]" and names season, round and status code; a success response
    with an empty race list prints one line that starts with "[INFO]" and
    names season and round; the two lines differ; a race that is returned
    prints nothing.  In both cases without a race the result is [None]. *)
Theorem race_fetcher_diagnostics :
  forall srv season round_number st,
    let response := srv (race_url season round_number) in
    let out := fetch_race_data season round_number srv st in
    let error_line :=
      "[ERROR] Failed to fetch data for Season " +s+ str_of_int season
      +s+ ", Round " +s+ str_of_int round_number +s+ ". HTTP Status: "
      +s+ str_of_int (status_code response) in
    let info_line :=
      "[INFO] No race data found for Season " +s+ str_of_int season
      +s+ ", Round " +s+ str_of_int round_number +s+ ". Skipping..." in
    (status_code response <> 200 ->
     fst out = Ok PNone /\ stdout (snd out) = stdout st ++ [error_line]) /\
    (status_code response = 200 ->
     forall races,
       mrdata response "RaceTable" "Races" = Ok races ->
       (truthy races = false ->
        fst out = Ok PNone /\ stdout (snd out) = stdout st ++ [info_line]) /\
       (truthy races = true ->
        fst out = getitem0 races /\ stdout (snd out) = stdout st)) /\
    info_line <> error_line.
Proof.
  intros srv season round_number st. cbv zeta.
  rewrite fetch_race_data_eq. cbv zeta.
  split; [|split].
  - intros Hstatus. apply Z.eqb_neq in Hstatus. rewrite Hstatus. auto.
  - intros Hstatus races Hraces. rewrite Hstatus, Hraces.
    cbv beta iota delta [Z.eqb Pos.eqb].
    split; intros ->; auto.
  - rewrite !append_cons. intros H. inversion H.
Qed.

Lemma race_fetcher_diagnostics_witness :
  fst (fetch_race_data 2021 2 Mock.srv empty_state) = Ok PNone /\
  stdout (snd (fetch_race_data 2021 2 Mock.srv empty_state)) =
    stdout empty_state ++
    ["[ERROR] Failed to fetch data for Season " +s+ str_of_int 2021
     +s+ ", Round " +s+ str_of_int 2 +s+ ". HTTP Status: "
     +s+ str_of_int (status_code (Mock.srv (race_url 2021 2)))].
Proof.
  apply (race_fetcher_diagnostics Mock.srv 2021 2 empty_state).
  vm_compute. discriminate.
Defined.
